(** * Harbinger: the Docker-to-Slack monitor of [harbinger.py]

    A shallow embedding of class [DockerSlackMonitor]: compose-label
    extraction, log-tail formatting, payload construction, the delivery
    retry loop and the monitoring loop, followed by the properties that
    the design document states about them.

    Conventions of the embedding.
    - A Python [str] is a [string] holding its UTF-8 bytes.  The separators
      the code splits on (space, '.', '/', newline) are ASCII, so splitting
      and prefix tests agree with Python on every input; [upper], [strip]
      and the digit test of [strptime] are the ASCII ones.
    - A [Dict[str, Any]] of container attributes is a record: the entry
      under key 'Labels' (absent, [None], a [str] or a dict of labels) and a
      finite map for the string-valued entries.
    - Exceptions are values [Exn cls msg]; a computation returns
      [result A] together with the new state, which holds the trace of
      effects performed and the number of calls made to each collaborator.
    - The collaborators (Docker daemon, Slack endpoint, signals, clock) are
      a [World]: for the i-th call of each kind, what it answers. *)

From Stdlib Require Import ZArith Ascii String List Bool Lia DecimalString DecimalPos.
From stdpp Require Import base gmap strings list option.

Local Open Scope string_scope.
Local Open Scope Z_scope.

(** ** Python strings *)

Module PyStr.

Definition of_Z (z : Z) : string := NilZero.string_of_int (Z.to_int z).

(** [sub in s] *)
Fixpoint contains (sub s : string) : bool :=
  String.prefix sub s ||
  match s with
  | EmptyString => false
  | String _ s' => contains sub s'
  end.

(** [s.startswith(p)] *)
Definition startswith (s p : string) : bool := String.prefix p s.

(** [s.split(c)] for a one-character separator: never the empty list. *)
Fixpoint split (c : ascii) (s : string) : list string :=
  match s with
  | EmptyString => [EmptyString]
  | String a s' =>
      if Ascii.eqb a c then EmptyString :: split c s'
      else match split c s' with
           | [] => [String a EmptyString]
           | w :: ws => String a w :: ws
           end
  end.

(** [s.split(c, 1)]: at most one cut, at the first occurrence of [c]. *)
Fixpoint split1 (c : ascii) (s : string) : list string :=
  match s with
  | EmptyString => [EmptyString]
  | String a s' =>
      if Ascii.eqb a c then [EmptyString; s']
      else match split1 c s' with
           | w :: ws => String a w :: ws
           | [] => [String a EmptyString]
           end
  end.

(** [sep.join(l)] *)
Definition join (sep : string) (l : list string) : string := String.concat sep l.

(** [l[-1]] on the non-empty list a split returns. *)
Definition last (l : list string) : string := List.last l EmptyString.

Definition upper_ascii (a : ascii) : ascii :=
  let n := nat_of_ascii a in
  if (Nat.leb 97 n && Nat.leb n 122)%bool then ascii_of_nat (n - 32)%nat else a.

(** [s.upper()] *)
Fixpoint upper (s : string) : string :=
  match s with
  | EmptyString => EmptyString
  | String a s' => String (upper_ascii a) (upper s')
  end.

(** [s.lstrip(c)] for a one-character set. *)
Fixpoint lstrip_char (c : ascii) (s : string) : string :=
  match s with
  | String a s' => if Ascii.eqb a c then lstrip_char c s' else s
  | EmptyString => EmptyString
  end.

Definition is_space (a : ascii) : bool :=
  let n := nat_of_ascii a in
  (Nat.eqb n 32 || (Nat.leb 9 n && Nat.leb n 13) || (Nat.leb 28 n && Nat.leb n 31))%bool.

Fixpoint lstrip (s : string) : string :=
  match s with
  | String a s' => if is_space a then lstrip s' else s
  | EmptyString => EmptyString
  end.

Fixpoint rstrip (s : string) : string :=
  match s with
  | EmptyString => EmptyString
  | String a s' =>
      match rstrip s' with
      | EmptyString => if is_space a then EmptyString else String a EmptyString
      | r => String a r
      end
  end.

(** [s.strip()] *)
Definition strip (s : string) : string := rstrip (lstrip s).

(** [l[-k:]] with Python's clipping of the start index. *)
Definition slice_last {A} (k : Z) (l : list A) : list A :=
  let len := Z.of_nat (List.length l) in
  let start := if -k <? 0 then Z.max 0 (-k + len) else Z.min (-k) len in
  List.skipn (Z.to_nat start) l.

(** Truth value of an [Optional[str]]: [None] and [''] are false. *)
Definition truthy (o : option string) : bool :=
  match o with
  | Some s => negb (String.eqb s "")
  | None => false
  end.

(** [a or b] on [Optional[str]] operands. *)
Definition or_ (a b : option string) : option string :=
  if truthy a then a else b.

(** [str(x)] of an [Optional[str]], as an f-string renders it. *)
Definition str_opt (o : option string) : string :=
  match o with
  | Some s => s
  | None => "None"
  end.

End PyStr.

Example split_path : PyStr.split "/" "/srv/myapp" = [""; "srv"; "myapp"].
Proof. reflexivity. Qed.

Example split1_line : PyStr.split1 " " "a b c" = ["a"; "b c"].
Proof. reflexivity. Qed.

Example split1_nospace : PyStr.split1 " " "abc" = ["abc"].
Proof. reflexivity. Qed.

Example strip_ex : PyStr.strip "  a b
" = "a b".
Proof. reflexivity. Qed.

Example slice_last_ex :
  PyStr.slice_last 2 [1;2;3] = [2;3] /\ PyStr.slice_last 5 [1;2;3] = [1;2;3] /\
  PyStr.slice_last 0 [1;2;3] = [1;2;3] /\ PyStr.slice_last (-1) [1;2;3] = [2;3].
Proof. repeat split; reflexivity. Qed.

Example upper_ex : PyStr.upper "restarted" = "RESTARTED".
Proof. reflexivity. Qed.

Example of_Z_ex : PyStr.of_Z 137 = "137" /\ PyStr.of_Z 0 = "0" /\ PyStr.of_Z (-2) = "-2".
Proof. repeat split; reflexivity. Qed.

Example utf8_ex : String.length "•" = 3%nat.
Proof. reflexivity. Qed.

(** ** Exceptions and results *)

(** The exception classes that the program raises, catches or can be
    handed by a collaborator.  [DockerNotFound] is
    [docker.errors.NotFound]; [OtherException] stands for any further
    subclass of [Exception]. *)
Inductive exc_class :=
| KeyboardInterrupt
| RequestException
| DockerNotFound
| SlackNotificationError
| AttributeError
| KeyError
| ValueError
| TypeError
| OtherException.

(** [Exn cls msg]: an exception object, with [msg] what [str(e)] gives. *)
Inductive exn := Exn (cls : exc_class) (msg : string).

Definition exn_class (e : exn) : exc_class := let 'Exn c _ := e in c.
Definition exn_str (e : exn) : string := let 'Exn _ m := e in m.

(** [isinstance(e, Exception)]: of the classes above only
    [KeyboardInterrupt] derives from [BaseException] directly. *)
Definition is_Exception (e : exn) : bool :=
  match exn_class e with
  | KeyboardInterrupt => false
  | _ => true
  end.

(** [isinstance(e, requests.exceptions.RequestException)]; docker's
    [NotFound] is an [APIError], which derives from requests' [HTTPError]. *)
Definition is_RequestException (e : exn) : bool :=
  match exn_class e with
  | RequestException | DockerNotFound => true
  | _ => false
  end.

Definition is_class (c : exc_class) (e : exn) : bool :=
  match c, exn_class e with
  | KeyboardInterrupt, KeyboardInterrupt
  | RequestException, RequestException
  | DockerNotFound, DockerNotFound
  | SlackNotificationError, SlackNotificationError
  | AttributeError, AttributeError
  | KeyError, KeyError
  | ValueError, ValueError
  | TypeError, TypeError
  | OtherException, OtherException => true
  | _, _ => false
  end.

Inductive result (A : Type) :=
| Ok (a : A)
| Raise (e : exn).
Arguments Ok {A} a.
Arguments Raise {A} e.

(** ** Container attributes and compose labels *)

(** What a dictionary of attributes holds under the key 'Labels'. *)
Inductive LabelsValue :=
| LabelsNone
| LabelsStr (s : string)
| LabelsDict (d : gmap string string).

Record Attributes := mkAttributes {
  Labels : option LabelsValue;      (* [None]: the key is absent *)
  strs : gmap string string         (* the string-valued entries *)
}.

(** [attributes.get(key, dflt)] on a string-valued entry. *)
Definition attr_get (a : Attributes) (key dflt : string) : string :=
  default dflt (strs a !! key).

Definition no_attribute (ty meth : string) : exn :=
  Exn AttributeError ("'" +:+ ty +:+ "' object has no attribute '" +:+ meth +:+ "'").

(** [labels.get(k)] for each key, which needs [labels] to be a dict. *)
Definition labels_dict (a : Attributes) : result (gmap string string) :=
  match Labels a with
  | None => Ok ∅
  | Some (LabelsDict d) => Ok d
  | Some (LabelsStr _) => Raise (no_attribute "str" "get")
  | Some LabelsNone => Raise (no_attribute "NoneType" "get")
  end.

Definition compose_project (labels : gmap string string) : option string :=
  PyStr.or_ (labels !! "com.docker.compose.project")
    (PyStr.or_
       (Some (PyStr.last (PyStr.split "/"
          (default "" (labels !! "com.docker.compose.project.working_dir")))))
       (labels !! "com.docker.compose.project.name")).

Definition compose_service (labels : gmap string string) : option string :=
  PyStr.or_ (labels !! "com.docker.compose.service")
            (labels !! "com.docker.compose.service.name").

(** [_get_compose_info] *)
Definition _get_compose_info (container_attributes : Attributes)
  : result (option string * option string) :=
  match labels_dict container_attributes with
  | Ok labels => Ok (compose_project labels, compose_service labels)
  | Raise e => Raise e
  end.

(** [_format_container_name] *)
Definition _format_container_name (attributes : Attributes) : result string :=
  match _get_compose_info attributes with
  | Ok (project, service) =>
      let container_name := attr_get attributes "name" "Unknown" in
      if (PyStr.truthy project && PyStr.truthy service)%bool
      then Ok (PyStr.str_opt project +:+ "/" +:+ PyStr.str_opt service)
      else Ok container_name
  | Raise e => Raise e
  end.

(** The function that the source defines under the name
    [_is_compose_operation]: a [def] in the body of [monitor_containers],
    placed after its [while True] loop.  It is a local of that method. *)
Definition monitor_containers_local_is_compose_operation (attributes : Attributes)
  : result bool :=
  match Labels attributes with
  | None => Ok false
  | Some (LabelsDict d) =>
      Ok (existsb (fun label => PyStr.startswith label "com.docker.compose")
                  (fst <$> map_to_list d))
  | Some (LabelsStr s) =>
      Ok (existsb (fun c => PyStr.startswith (String c EmptyString) "com.docker.compose")
                  (list_ascii_of_string s))
  | Some LabelsNone => Raise (Exn TypeError "'NoneType' object is not iterable")
  end.

(** The names that an instance of [DockerSlackMonitor] resolves: the
    methods of the class body and the fields set by [__init__]. *)
Definition DockerSlackMonitor_attrs : list string :=
  [ "__init__"; "_load_configuration"; "_initialize_docker_client";
    "_get_compose_info"; "_format_container_name"; "get_container_logs";
    "_get_container_details"; "format_status_message"; "_create_slack_payload";
    "send_slack_message"; "monitor_containers";
    "slack_webhook_url"; "hostname"; "environment"; "log_lines";
    "retry_interval"; "max_retries"; "client" ].

Definition has_attr (name : string) : bool :=
  existsb (String.eqb name) DockerSlackMonitor_attrs.

(** [self._is_compose_operation(attributes)] as line 426 evaluates it:
    attribute lookup on the instance comes first. *)
Definition self_is_compose_operation (attributes : Attributes) : result bool :=
  if has_attr "_is_compose_operation"
  then monitor_containers_local_is_compose_operation attributes
  else Raise (no_attribute "DockerSlackMonitor" "_is_compose_operation").

Definition labels_of (l : list (string * string)) : Attributes :=
  mkAttributes (Some (LabelsDict (list_to_map l))) ∅.

Example compose_wd :
  _get_compose_info (labels_of [("com.docker.compose.project.working_dir", "/srv/myapp")])
  = Ok (Some "myapp", None).
Proof. vm_compute. reflexivity. Qed.

Example compose_local_ex :
  monitor_containers_local_is_compose_operation
    (labels_of [("a", "b"); ("com.docker.compose.project", "shop")]) = Ok true.
Proof. vm_compute. reflexivity. Qed.

(** ** [datetime.strptime] and [strftime] for the two formats of the code *)

Module DateTime.

Record datetime := mkDatetime {
  year : Z; month : Z; day : Z; hour : Z; minute : Z; second : Z
}.

Definition is_digit (a : ascii) : bool :=
  let n := nat_of_ascii a in (Nat.leb 48 n && Nat.leb n 57)%bool.

Definition digit_val (a : ascii) : Z := Z.of_nat (nat_of_ascii a) - 48.

(** A regular-expression fragment: every way it matches a prefix of the
    input, in the order a backtracking matcher tries them, each with
    the value read and the input left over. *)
Definition matcher (A : Type) : Type := string -> list (A * string).

Definition m_ret {A} (a : A) : matcher A := fun s => [(a, s)].

Definition m_bind {A B} (m : matcher A) (k : A -> matcher B) : matcher B :=
  fun s => List.flat_map (fun '(a, r) => k a r) (m s).

Definition m_alt {A} (m1 m2 : matcher A) : matcher A :=
  fun s => (m1 s ++ m2 s)%list.

(** One digit whose value lies in [lo, hi]: a class such as [[0-5]]. *)
Definition m_digit (lo hi : Z) : matcher Z :=
  fun s =>
    match s with
    | String a r =>
        if (is_digit a && (lo <=? digit_val a) && (digit_val a <=? hi))%bool
        then [(digit_val a, r)] else []
    | EmptyString => []
    end.

Definition m_two (lo1 hi1 lo2 hi2 : Z) : matcher Z :=
  m_bind (m_digit lo1 hi1) (fun a =>
  m_bind (m_digit lo2 hi2) (fun b => m_ret (10 * a + b))).

(** A literal of the format; the pattern is compiled with IGNORECASE. *)
Definition m_lit (c : ascii) : matcher unit :=
  fun s =>
    match s with
    | String a r =>
        if Ascii.eqb (PyStr.upper_ascii a) (PyStr.upper_ascii c) then [(tt, r)] else []
    | EmptyString => []
    end.

(** [%Y]: \d\d\d\d *)
Definition m_Y : matcher Z :=
  m_bind (m_digit 0 9) (fun a => m_bind (m_digit 0 9) (fun b =>
  m_bind (m_digit 0 9) (fun c => m_bind (m_digit 0 9) (fun d =>
  m_ret (1000 * a + 100 * b + 10 * c + d))))).

(** [%m]: 1[0-2]|0[1-9]|[1-9] *)
Definition m_m : matcher Z :=
  m_alt (m_two 1 1 0 2) (m_alt (m_two 0 0 1 9) (m_digit 1 9)).

(** [%d]: 3[0-1]|[1-2]\d|0[1-9]|[1-9]| [1-9] *)
Definition m_d : matcher Z :=
  m_alt (m_two 3 3 0 1) (m_alt (m_two 1 2 0 9) (m_alt (m_two 0 0 1 9)
    (m_alt (m_digit 1 9) (m_bind (m_lit " ") (fun _ => m_digit 1 9))))).

(** [%H]: 2[0-3]|[0-1]\d|\d *)
Definition m_H : matcher Z :=
  m_alt (m_two 2 2 0 3) (m_alt (m_two 0 1 0 9) (m_digit 0 9)).

(** [%M]: [0-5]\d|\d *)
Definition m_M : matcher Z := m_alt (m_two 0 5 0 9) (m_digit 0 9).

(** [%S]: 6[0-1]|[0-5]\d|\d *)
Definition m_S : matcher Z :=
  m_alt (m_two 6 6 0 1) (m_alt (m_two 0 5 0 9) (m_digit 0 9)).

(** The tail of the pattern, from the seconds on: [%SZ]. *)
Definition m_SZ : matcher Z := m_bind m_S (fun s => m_bind (m_lit "Z") (fun _ => m_ret s)).

(** The pattern of '%Y-%m-%dT%H:%M:%SZ'. *)
Definition m_iso : matcher datetime :=
  m_bind m_Y (fun y => m_bind (m_lit "-") (fun _ =>
  m_bind m_m (fun mo => m_bind (m_lit "-") (fun _ =>
  m_bind m_d (fun d => m_bind (m_lit "T") (fun _ =>
  m_bind m_H (fun h => m_bind (m_lit ":") (fun _ =>
  m_bind m_M (fun mi => m_bind (m_lit ":") (fun _ =>
  m_bind m_SZ (fun s => m_ret (mkDatetime y mo d h mi s)))))))))))).

Definition is_leap (y : Z) : bool :=
  ((y mod 4 =? 0) && (negb (y mod 100 =? 0) || (y mod 400 =? 0)))%bool.

Definition days_in_month (y m : Z) : Z :=
  if m =? 2 then (if is_leap y then 29 else 28)
  else if ((m =? 4) || (m =? 6) || (m =? 9) || (m =? 11))%bool then 30 else 31.

(** The checks of the [datetime] constructor. *)
Definition valid (t : datetime) : bool :=
  ((1 <=? year t) && (year t <=? 9999) && (1 <=? month t) && (month t <=? 12)
   && (1 <=? day t) && (day t <=? days_in_month (year t) (month t))
   && (0 <=? hour t) && (hour t <=? 23) && (0 <=? minute t) && (minute t <=? 59)
   && (0 <=? second t) && (second t <=? 59))%bool.

(** [datetime.strptime(s, '%Y-%m-%dT%H:%M:%SZ')]: the first match of the
    pattern at the start of [s] must reach the end of [s], and the
    fields must form a date; every failure is a [ValueError]. *)
Definition strptime (s : string) : result datetime :=
  match m_iso s with
  | [] => Raise (Exn ValueError
            ("time data '" +:+ s +:+ "' does not match format '%Y-%m-%dT%H:%M:%SZ'"))
  | (t, EmptyString) :: _ =>
      if valid t then Ok t
      else Raise (Exn ValueError "value out of range for a datetime")
  | (t, String _ _ as r) :: _ =>
      Raise (Exn ValueError ("unconverted data remains: " +:+ r))
  end.

Definition pad (width : nat) (z : Z) : string :=
  let s := PyStr.of_Z z in
  string_of_list_ascii (List.repeat "0"%char (width - String.length s)) +:+ s.

(** [t.strftime('%Y-%m-%d %H:%M:%S')]; the year is shown on four digits. *)
Definition strftime (t : datetime) : string :=
  pad 4 (year t) +:+ "-" +:+ pad 2 (month t) +:+ "-" +:+ pad 2 (day t) +:+ " " +:+
  pad 2 (hour t) +:+ ":" +:+ pad 2 (minute t) +:+ ":" +:+ pad 2 (second t).

End DateTime.

Example strptime_ok :
  DateTime.strptime "2024-01-05T03:04:05Z" = Ok (DateTime.mkDatetime 2024 1 5 3 4 5).
Proof. vm_compute. reflexivity. Qed.

Example strptime_short_fields :
  DateTime.strptime "2024-1-5t3:4:5z" = Ok (DateTime.mkDatetime 2024 1 5 3 4 5).
Proof. vm_compute. reflexivity. Qed.

Example strptime_ZZ :
  DateTime.strptime "2024-01-05T03:04:05ZZ"
  = Raise (Exn ValueError "unconverted data remains: Z").
Proof. vm_compute. reflexivity. Qed.

Example strptime_feb30 :
  DateTime.strptime "2023-02-30T03:04:05Z"
  = Raise (Exn ValueError "value out of range for a datetime").
Proof. vm_compute. reflexivity. Qed.

Example strftime_ex :
  DateTime.strftime (DateTime.mkDatetime 2024 1 5 3 4 5) = "2024-01-05 03:04:05".
Proof. vm_compute. reflexivity. Qed.

(** ** Configuration, collaborators and effects *)

Record Config := mkConfig {
  slack_webhook_url : string;
  hostname : string;
  environment : string;
  log_lines : Z;
  retry_interval : Z;
  max_retries : Z
}.

(** [container.attrs] as [_get_container_details] reads it. 'Image' is a
    string-valued entry of [Config_]. *)
Record InspectAttrs := mkInspect {
  Name : string;
  Config_ : Attributes;
  Created : string;
  State_ : string;
  NetworkMode : string
}.

(** A container object: its attributes, and what
    [logs(tail=n, timestamps=True).decode('utf-8')] gives for each [n]. *)
Record Container := mkContainer {
  attrs : InspectAttrs;
  logs_decoded : Z -> result string
}.

(** The attachment of a Slack message; 'mrkdwn_in' is the constant
    [["text"]]. *)
Record Attachment := mkAttachment {
  color : string;
  title : string;
  text : string;
  footer : string;
  ts : Z
}.

Inductive PostReply :=
| Response (status_code : Z) (body : string)
| PostRaises (e : exn).

Record RawEvent := mkEvent {
  Action : string;
  Actor_ID : string;
  Actor_Attributes : Attributes
}.

(** How an event subscription ends once its events are consumed: the
    generator raises, or it is exhausted. *)
Inductive StreamEnd :=
| StreamRaises (e : exn)
| StreamExhausted.

Record World := mkWorld {
  containers_get : nat -> string -> result Container;
  post_reply : nat -> PostReply;
  sleep_interrupted : nat -> bool;   (* SIGINT arrives during the i-th sleep *)
  now_timestamp : nat -> Z;
  subscription : nat -> list RawEvent * StreamEnd
}.

Inductive level := INFO | WARNING | ERROR.

Inductive effect :=
| Log (lv : level) (msg : string)
| Sleep (seconds : Z)
| Post (url : string) (message : Attachment)
| ContainersGet (container_id : string)
| Subscribe.

(** The trace is chronological; [logger.debug] records are below the
    configured level and leave no entry. *)
Record State := mkState {
  trace : list effect;
  gets : nat;
  posts : nat;
  sleeps : nat;
  nows : nat;
  subs : nat
}.

Definition init : State := mkState [] 0 0 0 0 0.

Definition emit (e : effect) (st : State) : State :=
  mkState (trace st ++ [e]) (gets st) (posts st) (sleeps st) (nows st) (subs st).

Definition log (lv : level) (msg : string) (st : State) : State := emit (Log lv msg) st.

(** The line separator of the log text. *)
Definition newline : ascii := "010"%char.

Section Monitor.

Variable cfg : Config.
Variable w : World.

(** [self.client.containers.get(container_id)] *)
Definition client_containers_get (container_id : string) (st : State)
  : result Container * State :=
  let st1 := emit (ContainersGet container_id) st in
  (containers_get w (gets st) container_id,
   mkState (trace st1) (S (gets st)) (posts st) (sleeps st) (nows st) (subs st)).

(** [time.sleep(seconds)] *)
Definition time_sleep (seconds : Z) (st : State) : result unit * State :=
  if seconds <? 0 then (Raise (Exn ValueError "sleep length must be non-negative"), st)
  else
    let st1 := emit (Sleep seconds) st in
    (if sleep_interrupted w (sleeps st) then Raise (Exn KeyboardInterrupt "") else Ok tt,
     mkState (trace st1) (gets st) (posts st) (S (sleeps st)) (nows st) (subs st)).

(** [requests.post(self.slack_webhook_url, data=json.dumps(message), ...)] *)
Definition requests_post (message : Attachment) (st : State) : PostReply * State :=
  let st1 := emit (Post (slack_webhook_url cfg) message) st in
  (post_reply w (posts st),
   mkState (trace st1) (gets st) (S (posts st)) (sleeps st) (nows st) (subs st)).

(** [int(datetime.now().timestamp())] *)
Definition datetime_now (st : State) : Z * State :=
  (now_timestamp w (nows st),
   mkState (trace st) (gets st) (posts st) (sleeps st) (S (nows st)) (subs st)).

(** *** [get_container_logs] *)

(** The body of the [for line in ...] loop: the value appended to
    [formatted_logs].  The inner [try] catches [ValueError], the outer
    one every [Exception]. *)
Definition format_log_line_inner (line : string) : result string :=
  let parts := PyStr.split1 " " line in
  if (2 <=? List.length parts)%nat then
    let timestamp_str := List.hd "" parts in
    let timestamp_str := List.hd "" (PyStr.split "." timestamp_str) +:+ "Z" in
    match DateTime.strptime timestamp_str with
    | Ok timestamp =>
        let message := List.nth 1 parts "" in
        Ok (DateTime.strftime timestamp +:+ " | " +:+ message)
    | Raise e => if is_class ValueError e then Ok line else Raise e
    end
  else Ok line.

Definition format_log_line (line : string) : result string :=
  match format_log_line_inner line with
  | Ok out => Ok out
  | Raise e => if is_Exception e then Ok line else Raise e
  end.

(** The loop itself: one [append] per line, an exception that escapes
    the body ends the loop. *)
Fixpoint format_log_lines (lines : list string) : result (list string) :=
  match lines with
  | [] => Ok []
  | line :: rest =>
      match format_log_line line with
      | Ok out =>
          match format_log_lines rest with
          | Ok outs => Ok (out :: outs)
          | Raise e => Raise e
          end
      | Raise e => Raise e
      end
  end.

(** The [try] block of [get_container_logs]. *)
Definition get_container_logs_try (container_id : string) (tail : Z) (st : State)
  : result string * State :=
  match client_containers_get container_id st with
  | (Ok container, st1) =>
      match logs_decoded container tail with
      | Ok raw =>
          let logs := PyStr.strip raw in
          if String.eqb logs "" then (Ok "No logs available", st1)
          else
            match format_log_lines (PyStr.slice_last tail (PyStr.split newline logs)) with
            | Ok formatted_logs => (Ok (PyStr.join (String newline "") formatted_logs), st1)
            | Raise e => (Raise e, st1)
            end
      | Raise e => (Raise e, st1)
      end
  | (Raise e, st1) => (Raise e, st1)
  end.

Definition get_container_logs (container_id : string) (tail : Z) (st : State)
  : result string * State :=
  match get_container_logs_try container_id tail st with
  | (Ok s, st1) => (Ok s, st1)
  | (Raise e, st1) =>
      if is_class DockerNotFound e
      then (Ok "Container not found - may have been removed", st1)
      else if is_Exception e
      then (Ok ("Error retrieving logs: " +:+ exn_str e),
            log ERROR ("Error fetching logs for container " +:+ container_id +:+ ": "
                       +:+ exn_str e) st1)
      else (Raise e, st1)
  end.

(** *** [_get_container_details] *)

Record Details := mkDetails {
  d_name : string;
  d_image : string;
  d_project : option string;
  d_service : option string;
  d_compose : bool;
  d_created : string;
  d_state : string;
  d_network_mode : string
}.

(** The [try] block; [inspect['Config']['Image']] raises [KeyError]
    when the entry is missing. *)
Definition _get_container_details_try (container_id : string) (st : State)
  : result Details * State :=
  match client_containers_get container_id st with
  | (Ok container, st1) =>
      let inspect := attrs container in
      match _get_compose_info (Config_ inspect) with
      | Ok (project, service) =>
          match strs (Config_ inspect) !! "Image" with
          | Some image =>
              (Ok (mkDetails (PyStr.lstrip_char "/" (Name inspect)) image project service
                     (PyStr.truthy project && PyStr.truthy service)
                     (Created inspect) (State_ inspect) (NetworkMode inspect)), st1)
          | None => (Raise (Exn KeyError "'Image'"), st1)
          end
      | Raise e => (Raise e, st1)
      end
  | (Raise e, st1) => (Raise e, st1)
  end.

(** The returned dictionary: [None] is the empty dictionary [{}] of the
    [except] branch, [Some d] the eight-entry dictionary of the [try]. *)
Definition _get_container_details (container_id : string) (st : State)
  : result (option Details) * State :=
  match _get_container_details_try container_id st with
  | (Ok d, st1) => (Ok (Some d), st1)
  | (Raise e, st1) =>
      if is_Exception e
      then (Ok None, log ERROR ("Error getting container details: " +:+ exn_str e) st1)
      else (Raise e, st1)
  end.

(** *** [format_status_message] *)

Definition format_status_message (status_text : string) (exit_code : option string)
  : string :=
  match exit_code with
  | Some code =>
      if PyStr.contains "EXIT" status_text then
        if String.eqb code "0" then status_text +:+ " (Clean exit)"
        else status_text +:+ " (Error exit code: " +:+ code +:+ ")"
      else status_text
  | None => status_text
  end.

(** *** [_create_slack_payload], the method of the class body *)

(** [status_mapping.get(status, (status.upper(), "•"))] *)
Definition status_mapping (status : string) : string * string :=
  if String.eqb status "started" then ("START", "✅")
  else if String.eqb status "exited" then ("EXITED", "❌")
  else if String.eqb status "killed" then ("KILLED", "💀")
  else if String.eqb status "restart" then ("RESTART", "🔄")
  else if String.eqb status "start" then ("START", "✅")
  else if String.eqb status "stopped" then ("STOPPED", "⏹️")
  else (PyStr.upper status, "•").

(** [colors.get(status_text, "#cccccc")] *)
Definition colors (status_text : string) : string :=
  if String.eqb status_text "START" then "#36a64f"
  else if String.eqb status_text "EXITED" then "#dc3545"
  else if String.eqb status_text "KILLED" then "#ff6b6b"
  else if String.eqb status_text "RESTART" then "#4dabf7"
  else if String.eqb status_text "STOPPED" then "#ffd93d"
  else "#cccccc".

(** [status_display] of lines 301-303. *)
Definition status_display (status_text : string) (exit_code : option string) : string :=
  match exit_code with
  | Some code =>
      if PyStr.contains "EXIT" status_text
      then status_text +:+ " (Exit Code: " +:+ code +:+ ")"
      else status_text
  | None => status_text
  end.

(** [details.get('compose', False)] *)
Definition details_compose (details : option Details) : bool :=
  match details with Some d => d_compose d | None => false end.

(** [details.get('project', 'Unknown')], [details.get('service', 'Unknown')],
    rendered in an f-string. *)
Definition details_project (details : option Details) : string :=
  match details with Some d => PyStr.str_opt (d_project d) | None => "Unknown" end.
Definition details_service (details : option Details) : string :=
  match details with Some d => PyStr.str_opt (d_service d) | None => "Unknown" end.

(** [details.get('image')] *)
Definition details_image (details : option Details) : option string :=
  match details with Some d => Some (d_image d) | None => None end.

(** The first five entries of [message_parts]. *)
Definition standard_fields (container_name status_text : string)
    (exit_code : option string) (details : option Details) : list string :=
  ([ if details_compose details
    then "*Service:* `" +:+ details_project details +:+ "/" +:+ details_service details +:+ "`"
    else "*Service:* `" +:+ container_name +:+ "`";
    "*Status:* `" +:+ status_display status_text exit_code +:+ "`";
    "*Host:* `" +:+ hostname cfg +:+ "`";
    "*Environment:* `" +:+ environment cfg +:+ "`" ]
  ++ (if PyStr.truthy (details_image details)
      then ["*Image:* " +:+ PyStr.str_opt (details_image details)] else []))%list.

(** The condition of line 321. *)
Definition wants_logs (status_text : string) : bool :=
  PyStr.contains "EXIT" status_text || String.eqb status_text "KILLED".

(** The entries appended by lines 323-325. *)
Definition log_block (logs : string) : list string :=
  if (negb (String.eqb logs "") && negb (String.eqb logs "No logs available"))%bool
  then [String newline "*Recent Logs:*"; "```" +:+ logs +:+ "```"]
  else [].

Definition _create_slack_payload (container_name status : string)
    (container_id exit_code : option string) (st : State) : result Attachment * State :=
  let '(status_text, icon) := status_mapping status in
  let '(rdetails, st1) :=
    if PyStr.truthy container_id
    then _get_container_details (PyStr.str_opt container_id) st
    else (Ok None, st) in
  match rdetails with
  | Raise e => (Raise e, st1)
  | Ok details =>
      let is_compose := details_compose details in
      let title := if is_compose then "Docker Compose Service Event " +:+ icon
                   else "Docker Container Event " +:+ icon in
      let message_parts := standard_fields container_name status_text exit_code details in
      let '(rparts, st2) :=
        if wants_logs status_text then
          let '(rlogs, st') :=
            if PyStr.truthy container_id
            then get_container_logs (PyStr.str_opt container_id) (log_lines cfg) st1
            else (Ok "No logs available", st1) in
          match rlogs with
          | Ok logs => (Ok (message_parts ++ log_block logs)%list, st')
          | Raise e => (Raise e, st')
          end
        else (Ok message_parts, st1) in
      match rparts with
      | Raise e => (Raise e, st2)
      | Ok parts =>
          let '(now, st3) := datetime_now st2 in
          (Ok (mkAttachment (colors status_text) title
                 (PyStr.join (String newline "") parts)
                 ("Docker Monitor - " +:+ hostname cfg) now), st3)
      end
  end.

(** *** [send_slack_message] *)

Definition attempt_failed (attempt : Z) (what : string) : string :=
  "Attempt " +:+ PyStr.of_Z (attempt + 1) +:+ "/" +:+ PyStr.of_Z (max_retries cfg)
  +:+ " failed: " +:+ what.

Definition gave_up : exn :=
  Exn SlackNotificationError
    ("Failed to send notification after " +:+ PyStr.of_Z (max_retries cfg) +:+ " attempts").

(** Lines 385-386: the pause that follows a failed attempt. *)
Definition pause_between (attempt : Z) (st : State) : result unit * State :=
  if attempt <? max_retries cfg - 1 then time_sleep (retry_interval cfg) st
  else (Ok tt, st).

(** What one pass through the [try] of lines 368-383 comes to. *)
Inductive attempt_result :=
| Sent                                    (* status 200: [return] *)
| Failed (lv : level) (what : string)     (* logged, the loop goes on *)
| Propagates (e : exn).                   (* not a [RequestException] *)

Definition classify_reply (reply : PostReply) : attempt_result :=
  match reply with
  | Response code body => if code =? 200 then Sent else Failed WARNING body
  | PostRaises e => if is_RequestException e then Failed ERROR (exn_str e) else Propagates e
  end.

(** The [for attempt in range(self.max_retries)] loop and the [raise]
    after it; [todo] counts the iterations left, [attempt] is the loop
    variable. *)
Fixpoint send_attempts (message : Attachment) (container_name status : string)
    (todo : nat) (attempt : Z) (st : State) : result unit * State :=
  match todo with
  | O => (Raise gave_up, st)
  | S todo' =>
      let '(reply, st1) := requests_post message st in
      match classify_reply reply with
      | Sent =>
          (Ok tt, log INFO ("Notification sent for " +:+ container_name +:+ ": " +:+ status) st1)
      | Propagates e => (Raise e, st1)
      | Failed lv what =>
          match pause_between attempt (log lv (attempt_failed attempt what) st1) with
          | (Ok _, st2) => send_attempts message container_name status todo' (attempt + 1) st2
          | (Raise e, st2) => (Raise e, st2)
          end
      end
  end.

Definition send_slack_message (container_name status : string)
    (container_id exit_code : option string) (st : State) : result unit * State :=
  match _create_slack_payload container_name status container_id exit_code st with
  | (Ok message, st1) =>
      send_attempts message container_name status (Z.to_nat (max_retries cfg)) 0 st1
  | (Raise e, st1) => (Raise e, st1)
  end.

(** *** [monitor_containers] *)

Definition action_mapping (action : string) : option string :=
  if String.eqb action "die" then Some "exited"
  else if String.eqb action "kill" then Some "killed"
  else if String.eqb action "stop" then Some "stopped"
  else if String.eqb action "start" then Some "started"
  else if String.eqb action "restart" then Some "restarted"
  else if String.eqb action "pause" then Some "paused"
  else if String.eqb action "unpause" then Some "unpaused"
  else if String.eqb action "destroy" then Some "removed"
  else None.

(** [action in ['die', 'kill', 'destroy']] *)
Definition is_exit_action (action : string) : bool :=
  String.eqb action "die" || String.eqb action "kill" || String.eqb action "destroy".

(** The body of the inner [try] (lines 422-431); [continue] and the
    normal end of the body both give [Ok]. *)
Definition dispatch (action container_name mapped_status container_id : string)
    (attributes : Attributes) (st : State) : result unit * State :=
  if is_exit_action action then
    let exit_code := attr_get attributes "exitCode" "Unknown" in
    let skip :=
      if (String.eqb action "destroy" && String.eqb exit_code "0")%bool
      then self_is_compose_operation attributes
      else Ok false in
    match skip with
    | Raise e => (Raise e, st)
    | Ok true => (Ok tt, st)
    | Ok false =>
        send_slack_message container_name mapped_status (Some container_id)
          (Some exit_code) st
    end
  else send_slack_message container_name mapped_status (Some container_id) None st.

(** The body of [for event in ...] (lines 412-434). *)
Definition handle_event (event : RawEvent) (st : State) : result unit * State :=
  let action := Action event in
  match action_mapping action with
  | None => (Ok tt, st)
  | Some mapped_status =>
      let attributes := Actor_Attributes event in
      let container_id := Actor_ID event in
      match _format_container_name attributes with
      | Raise e => (Raise e, st)
      | Ok container_name =>
          match dispatch action container_name mapped_status container_id attributes st with
          | (Ok _, st1) => (Ok tt, st1)
          | (Raise e, st1) =>
              if is_class SlackNotificationError e
              then (Ok tt, log ERROR ("Failed to send notification: " +:+ exn_str e) st1)
              else (Raise e, st1)
          end
      end
  end.

(** The events of one subscription, in order; an exception that leaves
    the body of the [for] abandons the rest of the subscription. *)
Fixpoint dispatch_all (events : list RawEvent) (st : State) : result unit * State :=
  match events with
  | [] => (Ok tt, st)
  | event :: rest =>
      match handle_event event st with
      | (Ok _, st1) => dispatch_all rest st1
      | (Raise e, st1) => (Raise e, st1)
      end
  end.

(** [self.client.events(decode=True, filters=...)]: opens the next
    subscription. *)
Definition client_events (st : State) : (list RawEvent * StreamEnd) * State :=
  let st1 := emit Subscribe st in
  (subscription w (subs st),
   mkState (trace st1) (gets st) (posts st) (sleeps st) (nows st) (S (subs st))).

(** The [for] statement of line 411 over one subscription. *)
Definition for_events (st : State) : result unit * State :=
  let '((events, stream_end), st0) := client_events st in
  match dispatch_all events st0 with
  | (Ok _, st1) =>
      match stream_end with
      | StreamRaises e => (Raise e, st1)
      | StreamExhausted => (Ok tt, st1)
      end
  | (Raise e, st1) => (Raise e, st1)
  end.

(** Where [monitor_containers] stands after some iterations of
    [while True]. *)
Inductive Outcome :=
| Monitoring            (* in the loop, about to open a subscription *)
| Stopped               (* left the loop through [break] *)
| Escaped (e : exn).    (* an exception left [monitor_containers] *)

(** [fuel] iterations of the [while True] loop (lines 409-442). *)
Fixpoint monitor_loop (fuel : nat) (st : State) : Outcome * State :=
  match fuel with
  | O => (Monitoring, st)
  | S fuel' =>
      match for_events st with
      | (Ok _, st1) => monitor_loop fuel' st1
      | (Raise e, st1) =>
          if is_class KeyboardInterrupt e
          then (Stopped,
                log INFO "Received shutdown signal. Stopping container monitoring..." st1)
          else if is_Exception e then
            let st2 := log ERROR ("Error in monitoring loop: " +:+ exn_str e) st1 in
            let st3 := log INFO ("Retrying in " +:+ PyStr.of_Z (retry_interval cfg)
                                 +:+ " seconds...") st2 in
            match time_sleep (retry_interval cfg) st3 with
            | (Ok _, st4) => monitor_loop fuel' st4
            | (Raise e', st4) => (Escaped e', st4)
            end
          else (Escaped e, st1)
      end
  end.

Definition monitor_containers (fuel : nat) (st : State) : Outcome * State :=
  monitor_loop fuel
    (log INFO ("Starting Docker container monitoring on " +:+ hostname cfg +:+ "...") st).

End Monitor.

(** * Properties *)

(** ** Strings: splitting *)

Fixpoint has_char (c : ascii) (s : string) : bool :=
  match s with
  | EmptyString => false
  | String a s' => Ascii.eqb a c || has_char c s'
  end.

Lemma split_nonempty c s : PyStr.split c s <> [].
Proof. destruct s as [|a s]; simpl; [discriminate|]. destruct (Ascii.eqb a c); [discriminate|]. destruct (PyStr.split c s); discriminate. Qed.

Lemma split_singleton c s x : PyStr.split c s = [x] -> x = s.
Proof.
  revert x. induction s as [|a s IH]; simpl; intros x H.
  - congruence.
  - destruct (Ascii.eqb a c).
    + pose proof (split_nonempty c s). destruct (PyStr.split c s); congruence.
    + pose proof (split_nonempty c s).
      destruct (PyStr.split c s) as [|v vs]; [congruence|].
      injection H as <- ->. f_equal. apply IH. reflexivity.
Qed.

Lemma split_no_char c s : has_char c s = false -> PyStr.split c s = [s].
Proof.
  induction s as [|a s IH]; simpl; [reflexivity|].
  destruct (Ascii.eqb a c); simpl; [discriminate|].
  intros H. rewrite (IH H). reflexivity.
Qed.

(** The last piece of a split is free of the separator and is what
    follows the last separator of the string. *)
Lemma split_last_spec c s :
  has_char c (PyStr.last (PyStr.split c s)) = false /\
  exists pre, s = pre +:+ PyStr.last (PyStr.split c s) /\
              (pre = "" \/ exists pre', pre = pre' +:+ String c "").
Proof.
  unfold PyStr.last. induction s as [|a s [IHf [pre [IHe IHp]]]].
  - split; [reflexivity|]. exists "". split; [reflexivity | left; reflexivity].
  - pose proof (split_nonempty c s) as Hn. cbn [PyStr.split].
    destruct (Ascii.eqb_spec a c) as [->|Hne].
    + destruct (PyStr.split c s) as [|x xs] eqn:Hs; [congruence|].
      change (List.last ("" :: x :: xs) "") with (List.last (x :: xs) "").
      split; [exact IHf|].
      exists (String c pre). split; [exact (f_equal (String c) IHe)|].
      right. destruct IHp as [->|[pre' ->]];
        [exists ""; reflexivity | exists (String c pre'); reflexivity].
    + destruct (PyStr.split c s) as [|x xs] eqn:Hs; [congruence|].
      destruct xs as [|y ys].
      * apply split_singleton in Hs. subst x. cbn [List.last]. split.
        -- simpl. destruct (Ascii.eqb_spec a c); [congruence|]. exact IHf.
        -- exists "". split; [reflexivity | left; reflexivity].
      * change (List.last (String a x :: y :: ys) "") with (List.last (x :: y :: ys) "").
        split; [exact IHf|].
        exists (String a pre). split; [exact (f_equal (String a) IHe)|].
        destruct IHp as [->|[pre' ->]].
        -- exfalso. change (s = List.last (x :: y :: ys) "") in IHe.
           rewrite <- IHe in IHf.
           rewrite (split_no_char _ _ IHf) in Hs. discriminate.
        -- right. exists (String a pre'). reflexivity.
Qed.

Lemma truthy_Some_ne p : p <> "" -> PyStr.truthy (Some p) = true.
Proof. intros H. simpl. destruct (String.eqb_spec p ""); [contradiction | reflexivity]. Qed.

Lemma truthy_absent o : o = None \/ o = Some "" -> PyStr.truthy o = false.
Proof. intros [-> | ->]; reflexivity. Qed.

(** ** Group identity ([_get_compose_info]) *)

Definition project_key : string := "com.docker.compose.project".
Definition working_dir_key : string := "com.docker.compose.project.working_dir".
Definition project_name_key : string := "com.docker.compose.project.name".
Definition service_key : string := "com.docker.compose.service".
Definition service_name_key : string := "com.docker.compose.service.name".

(** The last path segment of the working-directory label ([''] when the
    label is missing). *)
Definition working_dir_segment (labels : gmap string string) : string :=
  PyStr.last (PyStr.split "/" (default "" (labels !! working_dir_key))).

(** C9. Group-identity extraction follows the priority chain, the first
    non-empty match winning: the project is the explicit project label if
    it is non-empty, otherwise the last path segment of the
    working-directory label if that is non-empty, otherwise the
    project-name label; the service is the explicit service label if it
    is non-empty, otherwise the service-name label.  Labels holding only
    the working directory "/srv/myapp" give project "myapp", and an
    explicit project label wins over a working directory. *)
Theorem compose_info_priority_chain (labels others : gmap string string) :
  exists project service,
    _get_compose_info (mkAttributes (Some (LabelsDict labels)) others) = Ok (project, service) /\
    (forall p, labels !! project_key = Some p -> p <> "" -> project = Some p) /\
    (labels !! project_key = None \/ labels !! project_key = Some "" ->
       working_dir_segment labels <> "" -> project = Some (working_dir_segment labels)) /\
    (labels !! project_key = None \/ labels !! project_key = Some "" ->
       working_dir_segment labels = "" -> project = labels !! project_name_key) /\
    (has_char "/" (working_dir_segment labels) = false /\
     exists pre, default "" (labels !! working_dir_key) = pre +:+ working_dir_segment labels /\
                 (pre = "" \/ exists pre', pre = pre' +:+ "/")) /\
    (forall v, labels !! service_key = Some v -> v <> "" -> service = Some v) /\
    (labels !! service_key = None \/ labels !! service_key = Some "" ->
       service = labels !! service_name_key) /\
    _get_compose_info (labels_of [(working_dir_key, "/srv/myapp")]) = Ok (Some "myapp", None) /\
    (forall p wd, p <> "" ->
       _get_compose_info (labels_of [(project_key, p); (working_dir_key, wd)])
       = Ok (Some p, None)).
Proof.
  exists (compose_project labels), (compose_service labels).
  split; [reflexivity|].
  unfold compose_project, compose_service, PyStr.or_.
  fold project_key working_dir_key project_name_key service_key service_name_key.
  fold (working_dir_segment labels).
  repeat apply conj.
  - intros p Hp Hne. rewrite Hp, (truthy_Some_ne _ Hne). reflexivity.
  - intros Hp Hseg. rewrite (truthy_absent _ Hp), (truthy_Some_ne _ Hseg). reflexivity.
  - intros Hp Hseg. rewrite (truthy_absent _ Hp), Hseg. reflexivity.
  - apply split_last_spec.
  - apply (split_last_spec "/" (default "" (labels !! working_dir_key))).
  - intros v Hv Hne. rewrite Hv, (truthy_Some_ne _ Hne). reflexivity.
  - intros Hs. rewrite (truthy_absent _ Hs). reflexivity.
  - vm_compute. reflexivity.
  - intros p wd Hne. unfold labels_of, _get_compose_info, labels_dict; cbn [Labels].
    unfold compose_project, compose_service, PyStr.or_.
    fold project_key working_dir_key project_name_key service_key service_name_key.
    assert (Hp : (list_to_map [(project_key, p); (working_dir_key, wd)] : gmap string string)
                 !! project_key = Some p).
    { cbn [list_to_map foldr]. apply lookup_insert_eq. }
    assert (Hs : (list_to_map [(project_key, p); (working_dir_key, wd)] : gmap string string)
                 !! service_key = None).
    { cbn [list_to_map foldr]. rewrite !lookup_insert_ne by (vm_compute; discriminate).
      apply lookup_empty. }
    assert (Hsn : (list_to_map [(project_key, p); (working_dir_key, wd)] : gmap string string)
                 !! service_name_key = None).
    { cbn [list_to_map foldr]. rewrite !lookup_insert_ne by (vm_compute; discriminate).
      apply lookup_empty. }
    rewrite Hp, Hs, Hsn, (truthy_Some_ne _ Hne). reflexivity.
Qed.

Lemma compose_info_priority_chain_witness :
  exists project service,
    _get_compose_info
      (mkAttributes (Some (LabelsDict {[ working_dir_key := "/srv/myapp" ]})) ∅)
    = Ok (project, service) /\ project = Some "myapp".
Proof.
  destruct (compose_info_priority_chain {[ working_dir_key := "/srv/myapp" ]} ∅)
    as (project & service & Hrun & _ & Hseg & _).
  exists project, service. split; [exact Hrun|].
  apply Hseg; [left; vm_compute; reflexivity | vm_compute; discriminate].
Defined.

(** ** Sample configuration and collaborators *)

Definition sample_cfg : Config :=
  mkConfig "https://hooks.slack.example/T0/B0" "host1" "production" 5 10 3.

Definition flat_attributes (l : list (string * string)) : Attributes :=
  mkAttributes None (list_to_map l).

Definition shop_api : Container :=
  mkContainer
    (mkInspect "/shop_api_1"
       (mkAttributes
          (Some (LabelsDict (list_to_map [(project_key, "shop"); (service_key, "api")])))
          (list_to_map [("Image", "nginx:1.25")]))
       "2024-01-05T03:00:00Z" "running" "bridge")
    (fun _ => Ok ("2024-01-05T03:04:05.123456789Z listening" +:+ String newline
                  "2024-01-05T03:04:06Z stopping")).

(** Every container exists; the endpoint answers 200. *)
Definition world_up : World :=
  mkWorld (fun _ _ => Ok shop_api) (fun _ => Response 200 "ok") (fun _ => false)
          (fun _ => 1700000000) (fun _ => ([], StreamRaises (Exn OtherException "Connection aborted"))).

(** Every container is gone; the endpoint answers 500. *)
Definition world_down : World :=
  mkWorld (fun _ _ => Raise (Exn DockerNotFound "404 Client Error: Not Found"))
          (fun _ => Response 500 "server_error") (fun _ => false)
          (fun _ => 1700000000) (fun _ => ([], StreamRaises (Exn OtherException "Connection aborted"))).

(** ** The shape of a built message *)

Definition title_of (is_compose : bool) (icon : string) : string :=
  if is_compose then "Docker Compose Service Event " +:+ icon
  else "Docker Container Event " +:+ icon.

(** What [_create_slack_payload] returns when it returns: the details and
    the log text it fetched determine the attachment. *)
Lemma payload_shape cfg w container_name status container_id exit_code st m st' :
  _create_slack_payload cfg w container_name status container_id exit_code st = (Ok m, st') ->
  exists details st1 block st2,
    (if PyStr.truthy container_id
     then _get_container_details w (PyStr.str_opt container_id) st
     else (Ok None, st)) = (Ok details, st1) /\
    (if wants_logs (fst (status_mapping status))
     then exists logs,
        (if PyStr.truthy container_id
         then get_container_logs w (PyStr.str_opt container_id) (log_lines cfg) st1
         else (Ok "No logs available", st1)) = (Ok logs, st2) /\ block = log_block logs
     else block = [] /\ st2 = st1) /\
    m = mkAttachment (colors (fst (status_mapping status)))
          (title_of (details_compose details) (snd (status_mapping status)))
          (PyStr.join (String newline "")
             (standard_fields cfg container_name (fst (status_mapping status)) exit_code details
              ++ block)%list)
          ("Docker Monitor - " +:+ hostname cfg) (now_timestamp w (nows st2)).
Proof.
  unfold _create_slack_payload.
  destruct (status_mapping status) as [status_text icon]. cbn [fst snd].
  destruct (if PyStr.truthy container_id
            then _get_container_details w (PyStr.str_opt container_id) st
            else (Ok None, st)) as [[details|e] st1] eqn:Hd; [|discriminate].
  destruct (wants_logs status_text) eqn:Hw.
  - destruct (if PyStr.truthy container_id
              then get_container_logs w (PyStr.str_opt container_id) (log_lines cfg) st1
              else (Ok "No logs available", st1)) as [[logs|e] st2] eqn:Hl; [|discriminate].
    unfold datetime_now. intros H. injection H as <- <-.
    exists details, st1, (log_block logs), st2.
    split; [reflexivity|]. split; [exists logs; split; [exact Hl | reflexivity]|]. reflexivity.
  - unfold datetime_now. intros H. injection H as <- <-.
    exists details, st1, [], st1.
    split; [reflexivity|]. split; [split; reflexivity|].
    rewrite app_nil_r. reflexivity.
Qed.

(** ** Exit-code rendering *)

Definition status_field (shown : string) : string := "*Status:* `" +:+ shown +:+ "`".

(** The message built for a [die] event with exit code "0" shows
    "(Exit Code: 0)", and "(Clean exit)" occurs nowhere in it. *)
Lemma payload_clean_exit_counterexample :
  exists m st',
    _create_slack_payload sample_cfg world_up "web1" "exited" (Some "abc") (Some "0") init
    = (Ok m, st') /\
    PyStr.split newline (text m) !! 1%nat = Some (status_field "EXITED (Exit Code: 0)") /\
    PyStr.contains "(Clean exit)" (text m) = false.
Proof. eexists _, _. split; [vm_compute; reflexivity|]. split; vm_compute; reflexivity. Qed.

(** C2 (as amended). The helper [format_status_message] renders, for a
    status text that contains "EXIT": exit code "0" as "(Clean exit)",
    any other present code X as "(Error exit code: X)", and an absent
    code as the bare status, in particular for "0", "1", "137" and
    "Unknown".  The message that [_create_slack_payload] builds does not
    go through the helper: its status line shows every present code X,
    "0" included, as "(Exit Code: X)" when the status text contains
    "EXIT", and the bare status when the code is absent. *)
Theorem exit_code_rendering cfg w :
  (forall status_text, PyStr.contains "EXIT" status_text = true ->
     format_status_message status_text (Some "0") = status_text +:+ " (Clean exit)" /\
     (forall x, x <> "0" ->
        format_status_message status_text (Some x)
        = status_text +:+ " (Error exit code: " +:+ x +:+ ")") /\
     format_status_message status_text None = status_text) /\
  (format_status_message "EXITED" (Some "0") = "EXITED (Clean exit)" /\
   format_status_message "EXITED" (Some "1") = "EXITED (Error exit code: 1)" /\
   format_status_message "EXITED" (Some "137") = "EXITED (Error exit code: 137)" /\
   format_status_message "EXITED" (Some "Unknown") = "EXITED (Error exit code: Unknown)") /\
  (forall container_name status container_id exit_code st m st',
     _create_slack_payload cfg w container_name status container_id exit_code st = (Ok m, st') ->
     exists details block,
       text m = PyStr.join (String newline "")
                  (standard_fields cfg container_name (fst (status_mapping status))
                     exit_code details ++ block)%list /\
       standard_fields cfg container_name (fst (status_mapping status)) exit_code details
         !! 1%nat
       = Some (status_field (status_display (fst (status_mapping status)) exit_code))) /\
  (forall status_text x, PyStr.contains "EXIT" status_text = true ->
     status_display status_text (Some x) = status_text +:+ " (Exit Code: " +:+ x +:+ ")") /\
  (forall status_text, status_display status_text None = status_text).
Proof.
  repeat apply conj.
  - intros status_text H. unfold format_status_message. rewrite H. repeat apply conj.
    + reflexivity.
    + intros x Hx. destruct (String.eqb_spec x "0"); [contradiction | reflexivity].
    + reflexivity.
  - reflexivity.
  - reflexivity.
  - reflexivity.
  - reflexivity.
  - intros container_name status container_id exit_code st m st' H.
    apply payload_shape in H as (details & st1 & block & st2 & _ & _ & ->).
    exists details, block. split; reflexivity.
  - intros status_text x H. unfold status_display. rewrite H. reflexivity.
  - reflexivity.
Qed.

Lemma exit_code_rendering_witness :
  format_status_message "EXITED" (Some "137") = "EXITED (Error exit code: 137)" /\
  status_display "EXITED" (Some "0") = "EXITED (Exit Code: 0)" /\
  exists m st', 
    _create_slack_payload sample_cfg world_up "web1" "exited" (Some "abc") (Some "137") init
    = (Ok m, st') /\
    exists details block,
      text m = PyStr.join (String newline "")
                 (standard_fields sample_cfg "web1" "EXITED" (Some "137") details ++ block)%list /\
      standard_fields sample_cfg "web1" "EXITED" (Some "137") details !! 1%nat
      = Some (status_field "EXITED (Exit Code: 137)").
Proof.
  destruct (exit_code_rendering sample_cfg world_up) as (Hhelper & _ & Hmsg & Hshown & _).
  split.
  { destruct (Hhelper "EXITED" eq_refl) as (_ & Hx & _). apply (Hx "137"). discriminate. }
  split.
  { apply (Hshown "EXITED" "0"). reflexivity. }
  eexists _, _. split; [vm_compute; reflexivity|].
  eapply (Hmsg "web1" "exited" (Some "abc") (Some "137") init). vm_compute. reflexivity.
Defined.

(** ** Log-tail formatting *)

Lemma has_char_app c s t : has_char c (s +:+ t) = has_char c s || has_char c t.
Proof. induction s as [|a s IH]; simpl; [reflexivity|]. rewrite IH. apply orb_assoc. Qed.

Lemma split1_cases c s :
  (PyStr.split1 c s = [s] /\ has_char c s = false) \/
  (exists tok rest, PyStr.split1 c s = [tok; rest] /\ s = tok +:+ String c rest /\
                    has_char c tok = false).
Proof.
  induction s as [|a s IH]; simpl.
  - left. split; reflexivity.
  - destruct (Ascii.eqb_spec a c) as [->|Hne].
    + right. exists "", s. repeat apply conj; reflexivity.
    + destruct IH as [[-> Hf] | (tok & rest & -> & -> & Hf)].
      * left. split; [reflexivity | exact Hf].
      * right. exists (String a tok), rest. repeat apply conj; [reflexivity | reflexivity |].
        simpl. destruct (Ascii.eqb_spec a c); [contradiction | exact Hf].
Qed.

Lemma uint_no_newline d : has_char newline (NilEmpty.string_of_uint d) = false.
Proof. induction d; simpl; auto. Qed.

Lemma of_Z_no_newline z : has_char newline (PyStr.of_Z z) = false.
Proof.
  unfold PyStr.of_Z, NilZero.string_of_int, NilZero.string_of_uint.
  destruct (Z.to_int z) as [d|d]; destruct d; try reflexivity;
    simpl; try apply uint_no_newline.
Qed.

Lemma pad_no_newline n z : has_char newline (DateTime.pad n z) = false.
Proof.
  unfold DateTime.pad. rewrite has_char_app, of_Z_no_newline, orb_false_r.
  induction (n - String.length (PyStr.of_Z z))%nat; simpl; auto.
Qed.

Lemma strftime_no_newline t : has_char newline (DateTime.strftime t) = false.
Proof.
  unfold DateTime.strftime. rewrite !has_char_app, !pad_no_newline. reflexivity.
Qed.

(** The text handed to [strptime] for a line: its first token cut at the
    first '.', with 'Z' appended. *)
Definition stamp_of (line : string) : string :=
  List.hd "" (PyStr.split "." (List.hd "" (PyStr.split1 " " line))) +:+ "Z".

Lemma format_log_line_inner_cases line :
  (format_log_line_inner line = Ok line /\
   (has_char " " line = false \/ exists e, DateTime.strptime (stamp_of line) = Raise e)) \/
  (exists tok message t,
     PyStr.split1 " " line = [tok; message] /\ line = tok +:+ String " " message /\
     DateTime.strptime (stamp_of line) = Ok t /\
     format_log_line_inner line = Ok (DateTime.strftime t +:+ " | " +:+ message)).
Proof.
  unfold format_log_line_inner, stamp_of.
  destruct (split1_cases " " line) as [[-> Hf] | (tok & message & -> & Hline & Hf)];
    cbn [List.length Nat.leb List.hd List.nth].
  - left. split; [reflexivity | left; exact Hf].
  - destruct (DateTime.strptime (List.hd "" (PyStr.split "." tok) +:+ "Z")) as [t|e] eqn:Hp.
    + right. exists tok, message, t. repeat apply conj; try reflexivity; assumption.
    + left. split; [|right; exists e; reflexivity].
      assert (Hv : is_class ValueError e = true).
      { unfold DateTime.strptime in Hp.
        destruct (DateTime.m_iso _) as [|[t0 [|a r]] l]; try (injection Hp as <-; reflexivity).
        destruct (DateTime.valid t0); [discriminate | injection Hp as <-; reflexivity]. }
      rewrite Hv. reflexivity.
Qed.



(** ** What [strptime] accepts *)

Section Matchers.
Import DateTime.

(** A matcher consumes a prefix: what is left over is a suffix of the
    input. *)
Definition consumes {A} (m : matcher A) : Prop :=
  forall s a r, In (a, r) (m s) -> exists pre, s = pre +:+ r.

(** The input ends, just before [r], with a digit and one more
    character. *)
Definition ends_in_digit_lit (s r : string) : Prop :=
  exists pre d z, s = pre +:+ String d (String z r) /\ is_digit d = true.

Lemma in_m_bind {A B} (m : matcher A) (k : A -> matcher B) s b r :
  In (b, r) (m_bind m k s) <-> exists a r', In (a, r') (m s) /\ In (b, r) (k a r').
Proof.
  unfold m_bind. rewrite in_flat_map. split.
  - intros [[a r'] [H1 H2]]. exists a, r'. split; assumption.
  - intros (a & r' & H1 & H2). exists (a, r'). split; assumption.
Qed.

Lemma string_app_assoc (a b c : string) : (a +:+ b) +:+ c = a +:+ (b +:+ c).
Proof. induction a as [|x a IH]; [reflexivity | exact (f_equal (String x) IH)]. Qed.

Lemma consumes_ret {A} (a : A) : consumes (m_ret a).
Proof. intros s a' r [H|[]]. injection H as _ <-. exists "". reflexivity. Qed.

Lemma consumes_digit lo hi : consumes (m_digit lo hi).
Proof.
  intros [|c s] a r; simpl; [intros []|].
  destruct (_ && _ && _)%bool; [|intros []].
  intros [H|[]]. injection H as _ <-. exists (String c ""). reflexivity.
Qed.

Lemma consumes_lit c : consumes (m_lit c).
Proof.
  intros [|x s] a r; simpl; [intros []|].
  destruct (Ascii.eqb _ _); [|intros []].
  intros [H|[]]. injection H as _ <-. exists (String x ""). reflexivity.
Qed.

Lemma consumes_bind {A B} (m : matcher A) (k : A -> matcher B) :
  consumes m -> (forall a, consumes (k a)) -> consumes (m_bind m k).
Proof.
  intros Hm Hk s b r H. apply in_m_bind in H as (a & r' & H1 & H2).
  destruct (Hm _ _ _ H1) as [p1 ->]. destruct (Hk _ _ _ _ H2) as [p2 ->].
  exists (p1 +:+ p2). symmetry. apply string_app_assoc.
Qed.

Lemma consumes_alt {A} (m1 m2 : matcher A) :
  consumes m1 -> consumes m2 -> consumes (m_alt m1 m2).
Proof.
  intros H1 H2 s a r H. unfold m_alt in H. apply in_app_or in H as [H|H]; eauto.
Qed.

Lemma consumes_two a b c d : consumes (m_two a b c d).
Proof.
  unfold m_two. apply consumes_bind; [apply consumes_digit|]. intros x.
  apply consumes_bind; [apply consumes_digit|]. intros y. apply consumes_ret.
Qed.

Create HintDb matchers.
Local Hint Resolve consumes_ret consumes_digit consumes_lit consumes_two : matchers.
Local Hint Extern 2 (consumes (m_bind _ _)) => apply consumes_bind; [|intros ?] : matchers.
Local Hint Extern 2 (consumes (m_alt _ _)) => apply consumes_alt : matchers.

Lemma consumes_Y : consumes m_Y.
Proof. unfold m_Y. auto 12 with matchers. Qed.

Lemma consumes_m : consumes m_m.
Proof. unfold m_m. auto with matchers. Qed.

Lemma consumes_d : consumes m_d.
Proof. unfold m_d. auto 10 with matchers. Qed.

Lemma consumes_H : consumes m_H.
Proof. unfold m_H. auto with matchers. Qed.

Lemma consumes_M : consumes m_M.
Proof. unfold m_M. auto with matchers. Qed.

(** Every way of matching the seconds ends on a digit. *)
Lemma digit_last lo hi s v r :
  In (v, r) (m_digit lo hi s) -> exists d, s = String d r /\ is_digit d = true.
Proof.
  destruct s as [|c s]; simpl; [intros []|].
  destruct (is_digit c) eqn:Hc; simpl; [|intros []].
  destruct (_ && _)%bool; [|intros []].
  intros [H|[]]. injection H as _ <-. exists c. split; [reflexivity | exact Hc].
Qed.

Lemma two_last a b c d s v r :
  In (v, r) (m_two a b c d s) -> exists pre x, s = pre +:+ String x r /\ is_digit x = true.
Proof.
  unfold m_two. intros H. apply in_m_bind in H as (x & r1 & H1 & H2).
  apply in_m_bind in H2 as (y & r2 & H2 & H3).
  destruct H3 as [H3|[]]. injection H3 as _ <-.
  destruct (consumes_digit _ _ _ _ _ H1) as [p ->].
  apply digit_last in H2 as (e & -> & He). exists p, e. split; [reflexivity | exact He].
Qed.

Lemma S_last s v r :
  In (v, r) (m_S s) -> exists pre x, s = pre +:+ String x r /\ is_digit x = true.
Proof.
  unfold m_S, m_alt. intros H.
  apply in_app_or in H as [H|H]; [eapply two_last; exact H|].
  apply in_app_or in H as [H|H]; [eapply two_last; exact H|].
  apply digit_last in H as (e & -> & He). exists "", e. split; [reflexivity | exact He].
Qed.

Lemma SZ_ends s v r : In (v, r) (m_SZ s) -> ends_in_digit_lit s r.
Proof.
  unfold m_SZ. intros H. apply in_m_bind in H as (x & r1 & H1 & H2).
  apply in_m_bind in H2 as (u & r2 & H2 & H3).
  destruct H3 as [H3|[]]. injection H3 as _ <-.
  apply S_last in H1 as (pre & d & -> & Hd).
  destruct r1 as [|z r1]; simpl in H2; [destruct H2|].
  destruct (Ascii.eqb _ _); [|destruct H2].
  destruct H2 as [H2|[]]. injection H2 as H2. subst r2.
  exists pre, d, z. split; [reflexivity | exact Hd].
Qed.

Lemma ends_after {A B} (m : matcher A) (k : A -> matcher B) s b r :
  consumes m ->
  (forall a s' , In (b, r) (k a s') -> ends_in_digit_lit s' r) ->
  In (b, r) (m_bind m k s) -> ends_in_digit_lit s r.
Proof.
  intros Hm Hk H. apply in_m_bind in H as (a & r' & H1 & H2).
  destruct (Hm _ _ _ H1) as [p ->].
  destruct (Hk _ _ H2) as (pre & d & z & -> & Hd).
  exists (p +:+ pre), d, z. split; [symmetry; apply string_app_assoc | exact Hd].
Qed.

Lemma iso_ends s t r : In (t, r) (m_iso s) -> ends_in_digit_lit s r.
Proof.
  unfold m_iso.
  apply ends_after; [apply consumes_Y|]; intros y s1.
  apply ends_after; [apply consumes_lit|]; intros ? s2.
  apply ends_after; [apply consumes_m|]; intros mo s3.
  apply ends_after; [apply consumes_lit|]; intros ? s4.
  apply ends_after; [apply consumes_d|]; intros d s5.
  apply ends_after; [apply consumes_lit|]; intros ? s6.
  apply ends_after; [apply consumes_H|]; intros h s7.
  apply ends_after; [apply consumes_lit|]; intros ? s8.
  apply ends_after; [apply consumes_M|]; intros mi s9.
  apply ends_after; [apply consumes_lit|]; intros ? s10.
  intros H. apply in_m_bind in H as (sec & r1 & H1 & H2).
  destruct H2 as [H2|[]]. injection H2 as _ <-.
  eapply SZ_ends. exact H1.
Qed.

(** A text that [strptime] accepts ends with a digit followed by one
    character (the 'Z' of the format). *)
Lemma strptime_Ok_ends s t : strptime s = Ok t -> ends_in_digit_lit s "".
Proof.
  unfold strptime. destruct (m_iso s) as [|[t0 r] l] eqn:Hm; [discriminate|].
  destruct r as [|a r]; [|discriminate]. intros _.
  apply (iso_ends s t0). rewrite Hm. left. reflexivity.
Qed.

End Matchers.

Lemma string_app_last_two p q a b c d :
  p +:+ String a (String b "") = q +:+ String c (String d "") -> a = c /\ b = d.
Proof.
  revert q. induction p as [|x p IH]; intros q H.
  - destruct q as [|y [|y' q]]; simpl in H.
    + injection H as -> ->. split; reflexivity.
    + injection H as _ _ H. discriminate.
    + injection H as _ _ H. destruct q; discriminate.
  - destruct q as [|y q]; simpl in H.
    + injection H as _ H. destruct p as [|x' p]; simpl in H.
      * injection H as _ H. discriminate.
      * injection H as _ H. destruct p; discriminate.
    + injection H as _ H. apply (IH q H).
Qed.

(** A token without '.' that ends in 'Z' gives a text ending in "ZZ",
    which [strptime] rejects. *)
Lemma stamp_ZZ_rejected line stem :
  has_char "." (List.hd "" (PyStr.split1 " " line)) = false ->
  List.hd "" (PyStr.split1 " " line) = stem +:+ "Z" ->
  forall t, DateTime.strptime (stamp_of line) <> Ok t.
Proof.
  intros Hdot Htok t Hp. apply strptime_Ok_ends in Hp as (pre & d & z & He & Hd).
  unfold stamp_of in He. rewrite (split_no_char _ _ Hdot) in He. cbn [List.hd] in He.
  rewrite Htok, string_app_assoc in He.
  change ("Z" +:+ "Z") with (String "Z"%char (String "Z"%char "")) in He.
  apply string_app_last_two in He as [<- _]. discriminate.
Qed.

(** A whole-second timestamp without zone suffix is reformatted although
    its token holds no '.'. *)
Lemma whole_second_token_counterexample :
  has_char "." (List.hd "" (PyStr.split1 " " "2024-01-05T03:04:05 hello")) = false /\
  format_log_line "2024-01-05T03:04:05 hello" = Ok "2024-01-05 03:04:05 | hello" /\
  "2024-01-05 03:04:05 | hello" <> "2024-01-05T03:04:05 hello".
Proof. repeat apply conj; [vm_compute; reflexivity | vm_compute; reflexivity | discriminate]. Qed.

(** C10 (as amended). For every log line whose first space-separated
    token contains no '.' and ends in 'Z', such as a well-formed
    whole-second RFC3339 timestamp, the formatter outputs the line
    unchanged: it appends 'Z' after cutting at the first '.', and a text
    ending in "ZZ" never parses.  A token with neither '.' nor a final
    'Z' that is otherwise a date and time does parse and its line is
    reformatted, as is a line with a fractional-second timestamp. *)
Theorem whole_second_Z_token_kept :
  (forall line stem,
     has_char "." (List.hd "" (PyStr.split1 " " line)) = false ->
     List.hd "" (PyStr.split1 " " line) = stem +:+ "Z" ->
     format_log_line line = Ok line) /\
  format_log_line "2024-01-05T03:04:06Z stopping" = Ok "2024-01-05T03:04:06Z stopping" /\
  format_log_line "2024-01-05T03:04:05 hello" = Ok "2024-01-05 03:04:05 | hello" /\
  format_log_line "2024-01-05T03:04:05.123456789Z listening"
  = Ok "2024-01-05 03:04:05 | listening".
Proof.
  repeat apply conj; try (vm_compute; reflexivity).
  intros line stem Hdot Htok. unfold format_log_line.
  destruct (format_log_line_inner_cases line)
    as [[Hin _] | (tok & message & t & _ & _ & Hp & _)].
  - rewrite Hin. reflexivity.
  - exfalso. exact (stamp_ZZ_rejected line stem Hdot Htok t Hp).
Qed.

Lemma whole_second_Z_token_kept_witness :
  has_char "." (List.hd "" (PyStr.split1 " " "2024-01-05T03:04:06Z stopping")) = false /\
  List.hd "" (PyStr.split1 " " "2024-01-05T03:04:06Z stopping") = "2024-01-05T03:04:06" +:+ "Z" /\
  format_log_line "2024-01-05T03:04:06Z stopping" = Ok "2024-01-05T03:04:06Z stopping".
Proof.
  split; [reflexivity|]. split; [reflexivity|].
  apply (proj1 whole_second_Z_token_kept _ "2024-01-05T03:04:06"); reflexivity.
Defined.


(** ** The log block *)

Definition recent_logs (logs : string) : list string :=
  [String newline "*Recent Logs:*"; "```" +:+ logs +:+ "```"].

Lemma log_block_spec logs :
  (logs <> "" -> logs <> "No logs available" -> log_block logs = recent_logs logs) /\
  (logs = "" \/ logs = "No logs available" -> log_block logs = []).
Proof.
  unfold log_block. split.
  - intros H1 H2. destruct (String.eqb_spec logs ""); [contradiction|].
    destruct (String.eqb_spec logs "No logs available"); [contradiction|]. reflexivity.
  - intros [-> | ->]; reflexivity.
Qed.

(** The fail-soft outcomes of [get_container_logs]. *)
Lemma get_container_logs_get_fails w container_id tail st e :
  containers_get w (gets st) container_id = Raise e ->
  is_Exception e = true ->
  exists st',
    get_container_logs w container_id tail st
    = (Ok (if is_class DockerNotFound e
           then "Container not found - may have been removed"
           else "Error retrieving logs: " +:+ exn_str e), st').
Proof.
  intros Hget He. unfold get_container_logs, get_container_logs_try, client_containers_get.
  rewrite Hget. destruct (is_class DockerNotFound e); [eexists; reflexivity|].
  rewrite He. eexists; reflexivity.
Qed.

(** The container of a [die] event is already gone: the log fetch gives
    its "not found" text and the message carries it in a log block. *)
Lemma log_block_not_found_counterexample :
  exists m st' st1,
    _create_slack_payload sample_cfg world_down "web1" "exited" (Some "abc") (Some "1") init
    = (Ok m, st') /\
    get_container_logs world_down "abc" (log_lines sample_cfg) init
    = (Ok "Container not found - may have been removed", st1) /\
    PyStr.contains
      (PyStr.join (String newline "")
         (recent_logs "Container not found - may have been removed")) (text m) = true.
Proof.
  eexists _, _, _. split; [vm_compute; reflexivity|].
  split; vm_compute; reflexivity.
Qed.

(** C8 (as amended). A fenced log block is appended to a message if and
    only if the status text contains "EXIT" or equals "KILLED" (of the
    eight categories: Exited and Killed) and the text returned by the log
    fetch is non-empty and differs from the literal "No logs available",
    which is returned for an empty log or a missing container id.  The
    fail-soft outcomes of the log fetch are other texts, "Container not
    found - may have been removed" and "Error retrieving logs: <error>",
    and they are rendered in a log block.  For every other category no
    log block appears. *)
Theorem log_block_condition cfg w :
  (forall container_name status container_id exit_code st m st',
     _create_slack_payload cfg w container_name status container_id exit_code st = (Ok m, st') ->
     exists details st1 block st2,
       text m = PyStr.join (String newline "")
                  (standard_fields cfg container_name (fst (status_mapping status))
                     exit_code details ++ block)%list /\
       (wants_logs (fst (status_mapping status)) = false -> block = []) /\
       (wants_logs (fst (status_mapping status)) = true ->
        exists logs,
          (if PyStr.truthy container_id
           then get_container_logs w (PyStr.str_opt container_id) (log_lines cfg) st1
           else (Ok "No logs available", st1)) = (Ok logs, st2) /\
          block = log_block logs)) /\
  (forall logs,
     (logs <> "" -> logs <> "No logs available" -> log_block logs = recent_logs logs) /\
     (logs = "" \/ logs = "No logs available" -> log_block logs = [])) /\
  (wants_logs (fst (status_mapping "exited")) = true /\
   wants_logs (fst (status_mapping "killed")) = true /\
   wants_logs (fst (status_mapping "started")) = false /\
   wants_logs (fst (status_mapping "stopped")) = false /\
   wants_logs (fst (status_mapping "restarted")) = false /\
   wants_logs (fst (status_mapping "paused")) = false /\
   wants_logs (fst (status_mapping "unpaused")) = false /\
   wants_logs (fst (status_mapping "removed")) = false) /\
  (forall container_id tail st e,
     containers_get w (gets st) container_id = Raise e ->
     is_Exception e = true ->
     exists logs st',
       get_container_logs w container_id tail st = (Ok logs, st') /\
       logs = (if is_class DockerNotFound e
               then "Container not found - may have been removed"
               else "Error retrieving logs: " +:+ exn_str e) /\
       log_block logs = recent_logs logs) /\
  (forall container_id tail st c raw,
     containers_get w (gets st) container_id = Ok c ->
     logs_decoded c tail = Ok raw ->
     PyStr.strip raw = "" ->
     exists st', get_container_logs w container_id tail st = (Ok "No logs available", st')).
Proof.
  repeat apply conj; try reflexivity.
  - intros container_name status container_id exit_code st m st' H.
    apply payload_shape in H as (details & st1 & block & st2 & _ & Hb & ->).
    exists details, st1, block, st2. split; [reflexivity|].
    destruct (wants_logs (fst (status_mapping status))).
    + split; [discriminate | intros _; exact Hb].
    + split; [intros _; exact (proj1 Hb) | discriminate].
  - exact log_block_spec.
  - intros container_id tail st e Hget He.
    destruct (get_container_logs_get_fails w container_id tail st e Hget He) as [st' Hrun].
    eexists _, st'. split; [exact Hrun|]. split; [reflexivity|].
    apply log_block_spec; destruct (is_class DockerNotFound e); discriminate.
  - intros container_id tail st c raw Hget Hlogs Hempty.
    unfold get_container_logs, get_container_logs_try, client_containers_get.
    rewrite Hget, Hlogs, Hempty. eexists; reflexivity.
Qed.

Lemma log_block_condition_witness :
  exists logs st',
    get_container_logs world_down "abc" 5 init = (Ok logs, st') /\
    logs = "Container not found - may have been removed" /\
    log_block logs = recent_logs logs.
Proof.
  destruct (log_block_condition sample_cfg world_down) as (_ & _ & _ & Hsoft & _).
  apply (Hsoft "abc" 5 init (Exn DockerNotFound "404 Client Error: Not Found")); reflexivity.
Defined.

(** ** Enrichment failures *)

Lemma get_container_logs_raises w container_id tail st e st' :
  get_container_logs w container_id tail st = (Raise e, st') -> is_Exception e = false.
Proof.
  unfold get_container_logs.
  destruct (get_container_logs_try w container_id tail st) as [[s|e0] st0]; [discriminate|].
  destruct (is_class DockerNotFound e0); [discriminate|].
  destruct (is_Exception e0) eqn:He; [discriminate|].
  intros H. injection H as <- _. exact He.
Qed.

Lemma get_container_details_raises w container_id st e st' :
  _get_container_details w container_id st = (Raise e, st') -> is_Exception e = false.
Proof.
  unfold _get_container_details.
  destruct (_get_container_details_try w container_id st) as [[d|e0] st0]; [discriminate|].
  destruct (is_Exception e0) eqn:He; [discriminate|].
  intros H. injection H as <- _. exact He.
Qed.

Lemma get_container_details_get_fails w container_id st e :
  containers_get w (gets st) container_id = Raise e ->
  is_Exception e = true ->
  _get_container_details w container_id st
  = (Ok None,
     mkState (trace st ++ [ContainersGet container_id;
                           Log ERROR ("Error getting container details: " +:+ exn_str e)])
             (S (gets st)) (posts st) (sleeps st) (nows st) (subs st)).
Proof.
  intros Hget He.
  unfold _get_container_details, _get_container_details_try, client_containers_get.
  rewrite Hget, He. unfold log, emit. cbn [trace gets posts sleeps nows subs].
  rewrite <- app_assoc. reflexivity.
Qed.

(** The fields of a message built without details: the service line is
    the container name the caller derived from the event. *)
Definition fallback_fields (cfg : Config) (container_name status : string)
    (exit_code : option string) : list string :=
  [ "*Service:* `" +:+ container_name +:+ "`";
    status_field (status_display (fst (status_mapping status)) exit_code);
    "*Host:* `" +:+ hostname cfg +:+ "`";
    "*Environment:* `" +:+ environment cfg +:+ "`" ].

(** C7. When fetching the container details fails, because the container
    no longer exists or through any other exception, the enrichment step
    does not raise: it logs the error and returns the empty details, and
    the message is built from the container name that the caller derived
    from the raw event's attributes (container-scoped title, service
    line, status, host and environment, no image) and is handed to the
    delivery loop.  Nothing but the shutdown signal ever leaves the
    enrichment step. *)
Theorem enrichment_falls_back cfg w :
  (forall container_id st e st',
     _get_container_details w container_id st = (Raise e, st') -> is_Exception e = false) /\
  (forall container_id st e,
     containers_get w (gets st) container_id = Raise e ->
     is_Exception e = true ->
     exists st',
       _get_container_details w container_id st = (Ok None, st') /\
       trace st' = (trace st ++ [ContainersGet container_id;
                       Log ERROR ("Error getting container details: " +:+ exn_str e)])%list) /\
  (forall container_name status container_id exit_code st e,
     container_id <> "" ->
     containers_get w (gets st) container_id = Raise e ->
     is_Exception e = true ->
     (exists m st' block,
        _create_slack_payload cfg w container_name status (Some container_id) exit_code st
        = (Ok m, st') /\
        title m = "Docker Container Event " +:+ snd (status_mapping status) /\
        text m = PyStr.join (String newline "")
                   (fallback_fields cfg container_name status exit_code ++ block)%list /\
        send_slack_message cfg w container_name status (Some container_id) exit_code st
        = send_attempts cfg w m container_name status (Z.to_nat (max_retries cfg)) 0 st') \/
     (exists e' st',
        _create_slack_payload cfg w container_name status (Some container_id) exit_code st
        = (Raise e', st') /\ is_Exception e' = false)).
Proof.
  repeat apply conj.
  - intros container_id st e st'. apply get_container_details_raises.
  - intros container_id st e Hget He. eexists. split.
    + apply get_container_details_get_fails; [exact Hget | exact He].
    + reflexivity.
  - intros container_name status container_id exit_code st e Hid Hget He.
    destruct (_create_slack_payload cfg w container_name status (Some container_id) exit_code st)
      as [[m|e'] st'] eqn:Hrun.
    + left. pose proof Hrun as Hshape.
      apply payload_shape in Hshape as (details & st1 & block & st2 & Hd & _ & Hm).
      rewrite (truthy_Some_ne _ Hid) in Hd. cbn [PyStr.str_opt] in Hd.
      rewrite (get_container_details_get_fails w container_id st e Hget He) in Hd.
      injection Hd as <- _. subst m.
      eexists _, st', block. split; [reflexivity|].
      split; [reflexivity|]. split; [reflexivity|].
      unfold send_slack_message. rewrite Hrun. reflexivity.
    + right. exists e', st'. split; [reflexivity|].
      unfold _create_slack_payload in Hrun.
      destruct (status_mapping status) as [status_text icon].
      rewrite (truthy_Some_ne _ Hid) in Hrun. cbn [PyStr.str_opt] in Hrun.
      rewrite (get_container_details_get_fails w container_id st e Hget He) in Hrun.
      destruct (wants_logs status_text); [|discriminate].
      match type of Hrun with
      | context [get_container_logs ?a ?b ?c ?d] =>
          destruct (get_container_logs a b c d) as [[logs|e0] st0] eqn:Hl
      end; [discriminate|].
      injection Hrun as <- _. eapply get_container_logs_raises. exact Hl.
Qed.

Lemma enrichment_falls_back_witness :
  exists m st' block,
    _create_slack_payload sample_cfg world_down "web1" "started" (Some "abc") None init
    = (Ok m, st') /\
    title m = "Docker Container Event ✅" /\
    text m = PyStr.join (String newline "")
               (fallback_fields sample_cfg "web1" "started" None ++ block)%list.
Proof.
  destruct (enrichment_falls_back sample_cfg world_down) as (_ & _ & Hmsg).
  destruct (Hmsg "web1" "started" "abc" None init
              (Exn DockerNotFound "404 Client Error: Not Found"))
    as [(m & st' & block & Hrun & Ht & Hx & _) | (e' & st' & Hrun & _)].
  - discriminate.
  - reflexivity.
  - reflexivity.
  - exists m, st', block. repeat apply conj; assumption.
  - exfalso. vm_compute in Hrun. discriminate.
Defined.

(** ** Clean removals *)

Lemma has_no_compose_operation : has_attr "_is_compose_operation" = false.
Proof. vm_compute. reflexivity. Qed.

Lemma format_container_name_total labels others :
  (labels = None \/ exists d, labels = Some (LabelsDict d)) ->
  exists container_name, _format_container_name (mkAttributes labels others) = Ok container_name.
Proof.
  intros [-> | [d ->]]; unfold _format_container_name, _get_compose_info, labels_dict;
    cbn [Labels]; match goal with |- context [if ?b then _ else _] => destruct b end;
    eexists; reflexivity.
Qed.

Definition clean_destroy (container_id : string) (labels : option LabelsValue)
    (others : gmap string string) : RawEvent :=
  mkEvent "destroy" container_id (mkAttributes labels (<["exitCode" := "0"]> others)).

Lemma handle_clean_destroy cfg w container_id labels others st :
  (labels = None \/ exists d, labels = Some (LabelsDict d)) ->
  handle_event cfg w (clean_destroy container_id labels others) st
  = (Raise (no_attribute "DockerSlackMonitor" "_is_compose_operation"), st).
Proof.
  intros Hl. unfold handle_event, clean_destroy. cbn [Action Actor_Attributes Actor_ID].
  change (action_mapping "destroy") with (Some "removed").
  destruct (format_container_name_total labels (<["exitCode" := "0"]> others) Hl) as [name ->].
  unfold dispatch. change (is_exit_action "destroy") with true. cbv iota.
  unfold attr_get. cbn [strs]. rewrite lookup_insert_eq. cbn [default].
  change (String.eqb "destroy" "destroy" && String.eqb "0" "0")%bool with true. cbv iota.
  unfold self_is_compose_operation. rewrite has_no_compose_operation. reflexivity.
Qed.

(** A subscription delivering the clean removal of a container that
    carries no compose label, then the start of another container. *)
Definition world_teardown : World :=
  mkWorld (fun _ _ => Ok shop_api) (fun _ => Response 200 "ok") (fun _ => false)
          (fun _ => 1700000000)
          (fun _ => ([clean_destroy "abc" None {[ "name" := "web1" ]};
                      mkEvent "start" "def" (flat_attributes [("name", "web2")])],
                     StreamExhausted)).

(** C1 (what the code does). A [destroy] event whose attributes carry
    exit code "0" makes the event handler raise [AttributeError], with or
    without compose labels: [_is_compose_operation] is a local function
    of [monitor_containers], not a method.  No message is built for it,
    the rest of the subscription is abandoned and the loop backs off; a
    [destroy] event with any other exit code is sent. *)
Theorem clean_destroy_raises_AttributeError cfg w :
  (forall container_id d others st,
     handle_event cfg w (clean_destroy container_id (Some (LabelsDict d)) others) st
     = (Raise (no_attribute "DockerSlackMonitor" "_is_compose_operation"), st)) /\
  (forall container_id others st,
     handle_event cfg w (clean_destroy container_id None others) st
     = (Raise (no_attribute "DockerSlackMonitor" "_is_compose_operation"), st)) /\
  (forall container_name container_id labels others code st,
     code <> "0" ->
     dispatch cfg w "destroy" container_name "removed" container_id
       (mkAttributes labels (<["exitCode" := code]> others)) st
     = send_slack_message cfg w container_name "removed" (Some container_id) (Some code) st) /\
  monitor_loop sample_cfg world_teardown 1 init
  = (Monitoring,
     mkState [Subscribe;
              Log ERROR ("Error in monitoring loop: 'DockerSlackMonitor' object has no "
                         +:+ "attribute '_is_compose_operation'");
              Log INFO "Retrying in 10 seconds...";
              Sleep 10] 0 0 1 0 1).
Proof.
  repeat apply conj.
  - intros. apply handle_clean_destroy. right. eexists; reflexivity.
  - intros. apply handle_clean_destroy. left. reflexivity.
  - intros container_name container_id labels others code st Hcode.
    unfold dispatch. change (is_exit_action "destroy") with true. cbv iota.
    unfold attr_get. cbn [strs]. rewrite lookup_insert_eq.
    change (default "Unknown" (Some code)) with code.
    change (String.eqb "destroy" "destroy") with true. cbn [andb].
    destruct (String.eqb_spec code "0") as [->|_]; [contradiction | reflexivity].
  - vm_compute. reflexivity.
Qed.

Lemma clean_destroy_raises_AttributeError_witness :
  dispatch sample_cfg world_up "destroy" "web1" "removed" "abc"
    (mkAttributes None (<["exitCode" := "1"]> ∅)) init
  = send_slack_message sample_cfg world_up "web1" "removed" (Some "abc") (Some "1") init.
Proof.
  destruct (clean_destroy_raises_AttributeError sample_cfg world_up) as (_ & _ & Hsent & _).
  apply Hsent. discriminate.
Defined.

(** ** The delivery loop *)

Section Delivery.

Variable cfg : Config.
Variable w : World.
Variable message : Attachment.
Variables container_name status : string.

(** A reply that counts as a failed attempt: a status other than 200, or
    a [RequestException]. *)
Definition attempt_fails (reply : PostReply) : bool :=
  match classify_reply reply with
  | Failed _ _ => true
  | _ => false
  end.

(** The record logged for a failed attempt. *)
Definition attempt_log (attempt : Z) (reply : PostReply) : effect :=
  match classify_reply reply with
  | Failed lv what => Log lv (attempt_failed cfg attempt what)
  | _ => Log INFO ""
  end.

(** The effects of [f] failed attempts, each followed by its pause,
    starting with the [p]-th post and loop variable [attempt]. *)
Fixpoint failed_rounds (p : nat) (attempt : Z) (f : nat) : list effect :=
  match f with
  | O => []
  | S f' =>
      Post (slack_webhook_url cfg) message :: attempt_log attempt (post_reply w p)
      :: Sleep (retry_interval cfg) :: failed_rounds (S p) (attempt + 1) f'
  end.

(** The effects other than log records. *)
Definition is_io (e : effect) : bool :=
  match e with
  | Log _ _ => false
  | _ => true
  end.

Definition io (l : list effect) : list effect := List.filter is_io l.

(** [n] posts with a pause of the retry interval between consecutive
    ones, and none after the last. *)
Fixpoint retry_schedule (n : nat) : list effect :=
  match n with
  | O => []
  | S O => [Post (slack_webhook_url cfg) message]
  | S n' => Post (slack_webhook_url cfg) message :: Sleep (retry_interval cfg)
            :: retry_schedule n'
  end.

Lemma io_app l1 l2 : io (l1 ++ l2) = (io l1 ++ io l2)%list.
Proof. apply List.filter_app. Qed.

Lemma attempt_log_not_io attempt reply : is_io (attempt_log attempt reply) = false.
Proof. unfold attempt_log. destruct (classify_reply reply); reflexivity. Qed.

Lemma io_failed_rounds p attempt f tl :
  io (failed_rounds p attempt f ++ Post (slack_webhook_url cfg) message :: tl)
  = (retry_schedule (S f) ++ io tl)%list.
Proof.
  revert p attempt. induction f as [|f IH]; intros p attempt.
  - reflexivity.
  - cbn [failed_rounds app]. unfold io in *. cbn [List.filter is_io].
    rewrite attempt_log_not_io. rewrite IH. reflexivity.
Qed.

Definition after_rounds (st : State) (attempt : Z) (f : nat) : State :=
  mkState (trace st ++ failed_rounds (posts st) attempt f)
          (gets st) (posts st + f) (sleeps st + f) (nows st) (subs st).

(** [f] failed attempts that are not the last ones: each is logged and
    followed by a pause, and the loop goes on. *)
Lemma send_attempts_failed_rounds f :
  0 <= retry_interval cfg ->
  forall todo attempt st,
    (f < todo)%nat ->
    attempt + Z.of_nat todo = max_retries cfg ->
    (forall i, (i < f)%nat -> attempt_fails (post_reply w (posts st + i)) = true) ->
    (forall i, (i < f)%nat -> sleep_interrupted w (sleeps st + i) = false) ->
    send_attempts cfg w message container_name status todo attempt st
    = send_attempts cfg w message container_name status (todo - f) (attempt + Z.of_nat f)
        (after_rounds st attempt f).
Proof.
  intros Ht. induction f as [|f IH]; intros todo attempt st Hlt Hsum Hfail Hsleep.
  - unfold after_rounds. cbn [failed_rounds]. rewrite app_nil_r, !Nat.add_0_r, Nat.sub_0_r.
    replace (attempt + Z.of_nat 0) with attempt by lia. destruct st; reflexivity.
  - destruct todo as [|todo]; [lia|].
    cbn [send_attempts]. unfold requests_post.
    pose proof (Hfail 0%nat ltac:(lia)) as H0. rewrite Nat.add_0_r in H0.
    unfold attempt_fails in H0.
    destruct (classify_reply (post_reply w (posts st))) as [|lv what|e] eqn:Hc;
      try discriminate.
    unfold pause_between.
    replace (attempt <? max_retries cfg - 1) with true by (symmetry; apply Z.ltb_lt; lia).
    unfold time_sleep.
    replace (retry_interval cfg <? 0) with false by (symmetry; apply Z.ltb_ge; lia).
    unfold log, emit. cbn [trace gets posts sleeps nows subs].
    pose proof (Hsleep 0%nat ltac:(lia)) as Hs0. rewrite Nat.add_0_r in Hs0. rewrite Hs0.
    rewrite (IH todo (attempt + 1)); cbn [trace gets posts sleeps nows subs].
    + f_equal; [lia|]. unfold after_rounds. cbn [trace gets posts sleeps nows subs failed_rounds].
      unfold attempt_log. rewrite Hc. rewrite <- !app_assoc. cbn [app].
      f_equal; lia.
    + lia.
    + lia.
    + intros i Hi. replace (S (posts st) + i)%nat with (posts st + S i)%nat by lia.
      apply Hfail. lia.
    + intros i Hi. replace (S (sleeps st) + i)%nat with (sleeps st + S i)%nat by lia.
      apply Hsleep. lia.
Qed.


End Delivery.

Definition sample_message : Attachment :=
  mkAttachment "#36a64f" "Docker Container Event ✅" "*Service:* `web1`"
               "Docker Monitor - host1" 1700000000.


(** ** Failure isolation per event *)

(** The exit code that the handler passes along with an action. *)
Definition exit_code_of (action : string) (attributes : Attributes) : option string :=
  if is_exit_action action then Some (attr_get attributes "exitCode" "Unknown") else None.

(** The test [action == 'destroy' and exit_code == '0'] of line 426. *)
Definition is_clean_destroy (action : string) (attributes : Attributes) : bool :=
  String.eqb action "destroy" && String.eqb (attr_get attributes "exitCode" "Unknown") "0".

Lemma is_clean_destroy_exit action attributes :
  is_clean_destroy action attributes = true -> is_exit_action action = true.
Proof.
  unfold is_clean_destroy, is_exit_action. intros H.
  apply andb_prop in H as [H _]. rewrite H. apply orb_true_r.
Qed.

Lemma dispatch_sends cfg w action container_name mapped_status container_id attributes st :
  is_clean_destroy action attributes = false ->
  dispatch cfg w action container_name mapped_status container_id attributes st
  = send_slack_message cfg w container_name mapped_status (Some container_id)
      (exit_code_of action attributes) st.
Proof.
  unfold dispatch, exit_code_of, is_clean_destroy. intros H.
  destruct (is_exit_action action); [|reflexivity]. rewrite H. reflexivity.
Qed.

(** Under sustained failure the delivery loop ends in the terminal
    error, having touched nothing but the trace and the counts of posts
    and sleeps. *)
Lemma send_attempts_gives_up cfg w message container_name status st :
  1 <= max_retries cfg ->
  0 <= retry_interval cfg ->
  (forall i, attempt_fails (post_reply w (posts st + i)) = true) ->
  (forall i, sleep_interrupted w (sleeps st + i) = false) ->
  exists st',
    send_attempts cfg w message container_name status (Z.to_nat (max_retries cfg)) 0 st
    = (Raise (gave_up cfg), st') /\ subs st' = subs st.
Proof.
  intros Hn Ht Hfail Hsleep. set (n := Z.to_nat (max_retries cfg)).
  assert (Hmax : Z.of_nat n = max_retries cfg) by (unfold n; lia).
  rewrite (send_attempts_failed_rounds cfg w message container_name status (n - 1) Ht n 0 st);
    [|lia|lia|intros; apply Hfail|intros; apply Hsleep].
  replace (n - (n - 1))%nat with 1%nat by lia.
  cbn [send_attempts]. unfold requests_post, after_rounds.
  cbn [trace gets posts sleeps nows subs].
  pose proof (Hfail (n - 1)%nat) as Hlast. unfold attempt_fails in Hlast.
  destruct (classify_reply (post_reply w (posts st + (n - 1)))) as [|lv what|e]; try discriminate.
  unfold pause_between.
  replace (0 + Z.of_nat (n - 1) <? max_retries cfg - 1) with false
    by (symmetry; apply Z.ltb_ge; lia).
  eexists. split; reflexivity.
Qed.

Definition failed_to_send (e : exn) : effect :=
  Log ERROR ("Failed to send notification: " +:+ exn_str e).


Definition start_web1 : RawEvent := mkEvent "start" "abc" (flat_attributes [("name", "web1")]).
Definition start_web2 : RawEvent := mkEvent "start" "def" (flat_attributes [("name", "web2")]).


(** ** The monitoring loop *)

(** A world in which no shutdown signal is ever delivered: whatever a
    collaborator raises is an [Exception], and no sleep is interrupted. *)
Definition quiet (w : World) : Prop :=
  (forall i container_id e, containers_get w i container_id = Raise e -> is_Exception e = true) /\
  (forall i container_id c tail e,
     containers_get w i container_id = Ok c -> logs_decoded c tail = Raise e ->
     is_Exception e = true) /\
  (forall i e, post_reply w i = PostRaises e -> is_Exception e = true) /\
  (forall i, sleep_interrupted w i = false) /\
  (forall i events e, subscription w i = (events, StreamRaises e) -> is_Exception e = true).

(** A computation that lets only [Exception]s out. *)
Definition raises_Exceptions {A} (run : result A * State) : Prop :=
  forall e st', run = (Raise e, st') -> is_Exception e = true.

Lemma not_Exception_is_interrupt e :
  is_Exception e = false -> is_class KeyboardInterrupt e = true.
Proof. destruct e as [[] msg]; cbv; congruence. Qed.

Lemma interrupt_not_Exception e :
  is_class KeyboardInterrupt e = true -> is_Exception e = false.
Proof. destruct e as [[] msg]; cbv; congruence. Qed.

Lemma format_log_lines_returns lines : exists outs, format_log_lines lines = Ok outs.
Proof.
  induction lines as [|line rest [outs IH]]; [eexists; reflexivity|].
  cbn [format_log_lines]. unfold format_log_line.
  destruct (format_log_line_inner_cases line) as [[-> _] | (tok & msg & t & _ & _ & _ & ->)];
    rewrite IH; eexists; reflexivity.
Qed.

(** Only opening a subscription moves the subscription count. *)
Ltac case_scrutinee :=
  match goal with
  | |- context [match ?x with _ => _ end] =>
      lazymatch x with
      | context [match _ with _ => _ end] => fail
      | _ => destruct x
      end
  end.

Lemma subs_logs w container_id tail st :
  subs (snd (get_container_logs w container_id tail st)) = subs st.
Proof.
  unfold get_container_logs, get_container_logs_try, client_containers_get.
  repeat case_scrutinee; reflexivity.
Qed.

Lemma subs_details w container_id st :
  subs (snd (_get_container_details w container_id st)) = subs st.
Proof.
  unfold _get_container_details, _get_container_details_try, client_containers_get.
  repeat case_scrutinee; reflexivity.
Qed.

Lemma subs_payload cfg w container_name status container_id exit_code st :
  subs (snd (_create_slack_payload cfg w container_name status container_id exit_code st))
  = subs st.
Proof.
  unfold _create_slack_payload. destruct (status_mapping status) as [status_text icon].
  pose proof (subs_details w (PyStr.str_opt container_id) st) as Hd.
  destruct (PyStr.truthy container_id).
  - destruct (_get_container_details w (PyStr.str_opt container_id) st) as [[details|e] st1].
    + cbn [snd] in Hd. unfold datetime_now.
      destruct (wants_logs status_text); [|exact Hd].
      pose proof (subs_logs w (PyStr.str_opt container_id) (log_lines cfg) st1) as Hl.
      destruct (get_container_logs w (PyStr.str_opt container_id) (log_lines cfg) st1)
        as [[logs|e] st2]; cbn [snd subs] in *; congruence.
    + exact Hd.
  - unfold datetime_now. destruct (wants_logs status_text); reflexivity.
Qed.

Lemma subs_send_attempts cfg w message container_name status todo :
  forall attempt st,
    subs (snd (send_attempts cfg w message container_name status todo attempt st)) = subs st.
Proof.
  induction todo as [|todo IH]; intros attempt st; [reflexivity|].
  cbn [send_attempts]. unfold requests_post, pause_between, time_sleep.
  destruct (classify_reply (post_reply w (posts st))); try reflexivity.
  destruct (attempt <? max_retries cfg - 1).
  - destruct (retry_interval cfg <? 0); [reflexivity|].
    cbn [trace gets posts sleeps nows subs log emit].
    destruct (sleep_interrupted w (sleeps st)); [reflexivity|]. rewrite IH. reflexivity.
  - rewrite IH. reflexivity.
Qed.

Lemma subs_send cfg w container_name status container_id exit_code st :
  subs (snd (send_slack_message cfg w container_name status container_id exit_code st))
  = subs st.
Proof.
  unfold send_slack_message.
  pose proof (subs_payload cfg w container_name status container_id exit_code st) as Hp.
  destruct (_create_slack_payload cfg w container_name status container_id exit_code st)
    as [[m|e] st1]; cbn [snd] in *; [|exact Hp].
  rewrite subs_send_attempts. exact Hp.
Qed.

Lemma subs_handle_event cfg w event st :
  subs (snd (handle_event cfg w event st)) = subs st.
Proof.
  unfold handle_event.
  destruct (action_mapping (Action event)) as [mapped|]; [|reflexivity].
  destruct (_format_container_name (Actor_Attributes event)) as [name|e]; [|reflexivity].
  assert (Hd : subs (snd (dispatch cfg w (Action event) name mapped (Actor_ID event)
                            (Actor_Attributes event) st)) = subs st).
  { unfold dispatch. repeat case_scrutinee; try reflexivity; apply subs_send. }
  destruct (dispatch cfg w (Action event) name mapped (Actor_ID event)
              (Actor_Attributes event) st) as [[u|e] st1]; cbn [snd] in *; [exact Hd|].
  destruct (is_class SlackNotificationError e); exact Hd.
Qed.

Lemma subs_dispatch_all cfg w events :
  forall st, subs (snd (dispatch_all cfg w events st)) = subs st.
Proof.
  induction events as [|event rest IH]; intros st; [reflexivity|].
  cbn [dispatch_all]. pose proof (subs_handle_event cfg w event st) as Hh.
  destruct (handle_event cfg w event st) as [[u|e] st1]; cbn [snd] in *; [|exact Hh].
  rewrite IH. exact Hh.
Qed.

Lemma subs_for_events cfg w st : subs (snd (for_events cfg w st)) = S (subs st).
Proof.
  unfold for_events, client_events.
  destruct (subscription w (subs st)) as [events stream_end].
  match goal with
  | |- context [dispatch_all cfg w events ?s0] =>
      pose proof (subs_dispatch_all cfg w events s0) as Hd;
      destruct (dispatch_all cfg w events s0) as [[u|e] st1]
  end; cbn [snd subs] in *; [|exact Hd].
  destruct stream_end; exact Hd.
Qed.

Section Quiet.

Variable cfg : Config.
Variable w : World.
Hypothesis Hquiet : quiet w.
Hypothesis Hinterval : 0 <= retry_interval cfg.

Lemma quiet_logs container_id tail st :
  exists logs st', get_container_logs w container_id tail st = (Ok logs, st').
Proof.
  destruct Hquiet as (Hget & Hlogs & _).
  unfold get_container_logs, get_container_logs_try, client_containers_get.
  destruct (containers_get w (gets st) container_id) as [c|e] eqn:Hc.
  - destruct (logs_decoded c tail) as [raw|e] eqn:Hl.
    + destruct (String.eqb (PyStr.strip raw) ""); [eexists _, _; reflexivity|].
      destruct (format_log_lines_returns
                  (PyStr.slice_last tail (PyStr.split newline (PyStr.strip raw)))) as [outs ->].
      eexists _, _; reflexivity.
    + rewrite (Hlogs _ _ _ _ _ Hc Hl).
      destruct (is_class DockerNotFound e); eexists _, _; reflexivity.
  - rewrite (Hget _ _ _ Hc).
    destruct (is_class DockerNotFound e); eexists _, _; reflexivity.
Qed.

Lemma quiet_details container_id st :
  exists details st', _get_container_details w container_id st = (Ok details, st').
Proof.
  destruct Hquiet as (Hget & _).
  unfold _get_container_details, _get_container_details_try, client_containers_get.
  destruct (containers_get w (gets st) container_id) as [c|e] eqn:Hc.
  - unfold _get_compose_info, labels_dict.
    destruct (Labels (Config_ (attrs c))) as [[|s|d]|]; try (eexists _, _; reflexivity);
      destruct (strs (Config_ (attrs c)) !! "Image"); eexists _, _; reflexivity.
  - rewrite (Hget _ _ _ Hc). eexists _, _; reflexivity.
Qed.

Lemma quiet_payload container_name status container_id exit_code st :
  exists m st',
    _create_slack_payload cfg w container_name status container_id exit_code st = (Ok m, st').
Proof.
  unfold _create_slack_payload. destruct (status_mapping status) as [status_text icon].
  assert (Hd : exists details st1,
             (if PyStr.truthy container_id
              then _get_container_details w (PyStr.str_opt container_id) st
              else (Ok None, st)) = (Ok details, st1)).
  { destruct (PyStr.truthy container_id); [apply quiet_details | eexists _, _; reflexivity]. }
  destruct Hd as (details & st1 & ->).
  destruct (wants_logs status_text); [|eexists _, _; reflexivity].
  assert (Hl : exists logs st2,
             (if PyStr.truthy container_id
              then get_container_logs w (PyStr.str_opt container_id) (log_lines cfg) st1
              else (Ok "No logs available", st1)) = (Ok logs, st2)).
  { destruct (PyStr.truthy container_id); [apply quiet_logs | eexists _, _; reflexivity]. }
  destruct Hl as (logs & st2 & ->). eexists _, _; reflexivity.
Qed.

Lemma quiet_send_attempts message container_name status todo :
  forall attempt st,
    raises_Exceptions (send_attempts cfg w message container_name status todo attempt st).
Proof.
  destruct Hquiet as (_ & _ & Hpost & Hsleep & _).
  induction todo as [|todo IH]; intros attempt st e st' H.
  - injection H as <- _. reflexivity.
  - cbn [send_attempts] in H. unfold requests_post in H.
    destruct (post_reply w (posts st)) as [code body|e0] eqn:Hp; cbn [classify_reply] in H.
    + destruct (code =? 200); [discriminate|].
      unfold pause_between, time_sleep in H.
      destruct (attempt <? max_retries cfg - 1).
      * replace (retry_interval cfg <? 0) with false in H by (symmetry; apply Z.ltb_ge; lia).
        rewrite Hsleep in H. eapply IH. exact H.
      * eapply IH. exact H.
    + destruct (is_RequestException e0) eqn:Hr.
      * unfold pause_between, time_sleep in H.
        destruct (attempt <? max_retries cfg - 1).
        -- replace (retry_interval cfg <? 0) with false in H by (symmetry; apply Z.ltb_ge; lia).
           rewrite Hsleep in H. eapply IH. exact H.
        -- eapply IH. exact H.
      * injection H as <- _. eapply Hpost. exact Hp.
Qed.

Lemma quiet_send container_name status container_id exit_code st :
  raises_Exceptions (send_slack_message cfg w container_name status container_id exit_code st).
Proof.
  unfold send_slack_message.
  destruct (quiet_payload container_name status container_id exit_code st) as (m & st1 & ->).
  apply quiet_send_attempts.
Qed.

Lemma quiet_handle_event event st : raises_Exceptions (handle_event cfg w event st).
Proof.
  intros e st' H. unfold handle_event in H.
  destruct (action_mapping (Action event)) as [mapped|]; [|discriminate].
  destruct (_format_container_name (Actor_Attributes event)) as [name|e0] eqn:Hn.
  - destruct (dispatch cfg w (Action event) name mapped (Actor_ID event)
                (Actor_Attributes event) st) as [[u|e1] st1] eqn:Hd; [discriminate|].
    destruct (is_class SlackNotificationError e1); [discriminate|].
    injection H as <- _. unfold dispatch in Hd.
    destruct (is_exit_action (Action event)).
    + destruct (String.eqb (Action event) "destroy"
                && String.eqb (attr_get (Actor_Attributes event) "exitCode" "Unknown") "0")%bool.
      * unfold self_is_compose_operation in Hd. rewrite has_no_compose_operation in Hd.
        injection Hd as <- _. reflexivity.
      * eapply quiet_send. exact Hd.
    + eapply quiet_send. exact Hd.
  - injection H as <- _.
    unfold _format_container_name, _get_compose_info, labels_dict in Hn.
    destruct (Labels (Actor_Attributes event)) as [[|s|d]|];
      try (injection Hn as <-; reflexivity);
      match type of Hn with context [if ?b then _ else _] => destruct b end; discriminate.
Qed.

Lemma quiet_dispatch_all events : forall st, raises_Exceptions (dispatch_all cfg w events st).
Proof.
  induction events as [|event rest IH]; intros st e st' H; [discriminate|].
  cbn [dispatch_all] in H.
  destruct (handle_event cfg w event st) as [[u|e0] st1] eqn:Hh.
  - eapply IH. exact H.
  - injection H as <- _. eapply quiet_handle_event. exact Hh.
Qed.

Lemma quiet_for_events st : raises_Exceptions (for_events cfg w st).
Proof.
  destruct Hquiet as (_ & _ & _ & _ & Hsub).
  intros e st' H. unfold for_events, client_events in H.
  destruct (subscription w (subs st)) as [events stream_end] eqn:Hs.
  match type of H with
  | context [dispatch_all cfg w events ?s0] =>
      destruct (dispatch_all cfg w events s0) as [[u|e0] st1] eqn:Hd
  end.
  - destruct stream_end as [e1|]; [|discriminate].
    injection H as <- _. eapply Hsub. exact Hs.
  - injection H as <- _. eapply quiet_dispatch_all. exact Hd.
Qed.

(** Without a shutdown signal the loop is still running after any number
    of iterations, each of which opened one subscription. *)
Lemma quiet_monitor_loop fuel :
  forall st, fst (monitor_loop cfg w fuel st) = Monitoring /\
             subs (snd (monitor_loop cfg w fuel st)) = (subs st + fuel)%nat.
Proof.
  pose proof Hquiet as (_ & _ & _ & Hsleep & _).
  induction fuel as [|fuel IH]; intros st.
  - cbn. split; [reflexivity | lia].
  - cbn [monitor_loop]. pose proof (subs_for_events cfg w st) as Hsubs.
    destruct (for_events cfg w st) as [[u|e] st1] eqn:Hf; cbn [snd] in Hsubs.
    + destruct (IH st1) as [H1 H2]. split; [exact H1 | lia].
    + pose proof (quiet_for_events st e st1 Hf) as He.
      replace (is_class KeyboardInterrupt e) with false
        by (destruct e as [[] msg]; cbv in He |- *; congruence).
      rewrite He. unfold time_sleep.
      replace (retry_interval cfg <? 0) with false by (symmetry; apply Z.ltb_ge; lia).
      unfold log, emit. cbn [trace gets posts sleeps nows subs]. rewrite Hsleep.
      match goal with |- context [monitor_loop cfg w fuel ?s] => destruct (IH s) as [H1 H2] end.
      cbn [subs] in H2. split; [exact H1 | lia].
Qed.

End Quiet.

(** The state after the [except Exception] handler of the loop has run
    on [e], its sleep completed. *)
Definition backed_off (cfg : Config) (e : exn) (st : State) : State :=
  mkState (trace st ++ [Log ERROR ("Error in monitoring loop: " +:+ exn_str e);
                        Log INFO ("Retrying in " +:+ PyStr.of_Z (retry_interval cfg)
                                  +:+ " seconds...");
                        Sleep (retry_interval cfg)])
          (gets st) (posts st) (S (sleeps st)) (nows st) (subs st).

Definition shutdown_logged (st : State) : State :=
  log INFO "Received shutdown signal. Stopping container monitoring..." st.

Lemma for_events_stream_raises cfg w st events e st1 :
  subscription w (subs st) = (events, StreamRaises e) ->
  dispatch_all cfg w events (snd (client_events w st)) = (Ok tt, st1) ->
  for_events cfg w st = (Raise e, st1).
Proof.
  intros Hsub Hd. unfold for_events. unfold client_events in *. rewrite Hsub.
  cbn [snd] in Hd. rewrite Hd. reflexivity.
Qed.

Lemma quiet_world_down : quiet world_down.
Proof.
  repeat apply conj; cbn.
  - intros _ _ e H. injection H as <-. reflexivity.
  - intros _ _ c tail e H. discriminate.
  - intros _ e H. discriminate.
  - reflexivity.
  - intros _ events e H. injection H as _ <-. reflexivity.
Qed.



(** * Further properties of the monitor *)

(** ** What building a message touches *)

(** The effects of the enrichment step: container lookups and log
    records. *)
Definition is_lookup_or_log (e : effect) : bool :=
  match e with
  | ContainersGet _ | Log _ _ => true
  | _ => false
  end.

(** [st'] extends [st] by the effects [added] and [k] container lookups,
    and by nothing else. *)
Definition enriches (st st' : State) (added : list effect) (k : nat) : Prop :=
  trace st' = (trace st ++ added)%list /\
  forallb is_lookup_or_log added = true /\
  gets st' = (gets st + k)%nat /\
  posts st' = posts st /\ sleeps st' = sleeps st /\ subs st' = subs st.

Lemma enriches_refl st : enriches st st [] 0.
Proof.
  unfold enriches. rewrite app_nil_r, Nat.add_0_r. repeat apply conj; reflexivity.
Qed.

Lemma enriches_trans st st1 st2 a1 a2 k1 k2 :
  enriches st st1 a1 k1 -> enriches st1 st2 a2 k2 -> enriches st st2 (a1 ++ a2) (k1 + k2).
Proof.
  unfold enriches. intros (T1 & F1 & G1 & P1 & S1 & U1) (T2 & F2 & G2 & P2 & S2 & U2).
  repeat apply conj; try congruence.
  - rewrite T2, T1, app_assoc. reflexivity.
  - rewrite forallb_app, F1, F2. reflexivity.
  - lia.
Qed.

Ltac solve_enriches :=
  unfold enriches, log, emit; cbn [trace gets posts sleeps nows subs snd];
  repeat apply conj;
  [ rewrite <- ?app_assoc; reflexivity | reflexivity | lia
  | reflexivity | reflexivity | reflexivity ].

Lemma logs_enriches w container_id tail st :
  exists added,
    enriches st (snd (get_container_logs w container_id tail st)) added 1.
Proof.
  unfold get_container_logs, get_container_logs_try, client_containers_get.
  repeat case_scrutinee; eexists; solve_enriches.
Qed.

Lemma details_enriches w container_id st :
  exists added,
    enriches st (snd (_get_container_details w container_id st)) added 1.
Proof.
  unfold _get_container_details, _get_container_details_try, client_containers_get.
  repeat case_scrutinee; eexists; solve_enriches.
Qed.

Lemma nows_logs w container_id tail st :
  nows (snd (get_container_logs w container_id tail st)) = nows st.
Proof.
  unfold get_container_logs, get_container_logs_try, client_containers_get.
  repeat case_scrutinee; reflexivity.
Qed.

Lemma nows_details w container_id st :
  nows (snd (_get_container_details w container_id st)) = nows st.
Proof.
  unfold _get_container_details, _get_container_details_try, client_containers_get.
  repeat case_scrutinee; reflexivity.
Qed.

Lemma enriches_clock st st' added k n :
  enriches st st' added k ->
  enriches st (mkState (trace st') (gets st') (posts st') (sleeps st') n (subs st')) added k.
Proof. intros H. exact H. Qed.

(** The message builder only enriches. *)
Lemma payload_enriches cfg w container_name status container_id exit_code st :
  exists added k,
    enriches st
      (snd (_create_slack_payload cfg w container_name status container_id exit_code st))
      added k.
Proof.
  unfold _create_slack_payload, datetime_now.
  destruct (status_mapping status) as [status_text icon].
  destruct (PyStr.truthy container_id).
  - destruct (details_enriches w (PyStr.str_opt container_id) st) as [a1 H1].
    destruct (_get_container_details w (PyStr.str_opt container_id) st)
      as [[details|e] st1]; cbn [snd] in H1; [|eexists _, _; exact H1].
    destruct (wants_logs status_text); [|eexists _, _; apply enriches_clock; exact H1].
    destruct (logs_enriches w (PyStr.str_opt container_id) (log_lines cfg) st1) as [a2 H2].
    pose proof (enriches_trans _ _ _ _ _ _ _ H1 H2) as H12.
    destruct (get_container_logs w (PyStr.str_opt container_id) (log_lines cfg) st1)
      as [[logs|e] st2]; cbn [snd] in *; eexists _, _;
      [apply enriches_clock|]; exact H12.
  - destruct (wants_logs status_text); cbn [snd]; exists [], 0%nat;
      apply enriches_clock, enriches_refl.
Qed.

(** Building a message performs container lookups and writes log
    records, and nothing else: it never posts, sleeps or subscribes.  It
    makes at most two lookups (the details, and the log tail when the
    status asks for logs), none at all when no container id is given,
    and it reads the clock exactly once when it returns a message. *)
Theorem payload_only_looks_up cfg w container_name status container_id exit_code st :
  exists added k,
    enriches st
      (snd (_create_slack_payload cfg w container_name status container_id exit_code st))
      added k /\
    (k <= 2)%nat /\
    (wants_logs (fst (status_mapping status)) = false -> (k <= 1)%nat) /\
    (PyStr.truthy container_id = false -> k = 0%nat /\ added = []) /\
    (forall m st',
       _create_slack_payload cfg w container_name status container_id exit_code st
       = (Ok m, st') ->
       nows st' = S (nows st) /\ ts m = now_timestamp w (nows st) /\
       k = ((if PyStr.truthy container_id then 1 else 0)
            + (if (PyStr.truthy container_id && wants_logs (fst (status_mapping status)))%bool
               then 1 else 0))%nat).
Proof.
  unfold _create_slack_payload, datetime_now.
  destruct (status_mapping status) as [status_text icon]. cbn [fst].
  destruct (PyStr.truthy container_id) eqn:Hid.
  - destruct (details_enriches w (PyStr.str_opt container_id) st) as [a1 H1].
    pose proof (nows_details w (PyStr.str_opt container_id) st) as N1.
    destruct (_get_container_details w (PyStr.str_opt container_id) st)
      as [[details|e] st1]; cbn [snd] in H1, N1.
    + destruct (wants_logs status_text) eqn:Hw.
      * destruct (logs_enriches w (PyStr.str_opt container_id) (log_lines cfg) st1)
          as [a2 H2].
        pose proof (nows_logs w (PyStr.str_opt container_id) (log_lines cfg) st1) as N2.
        pose proof (enriches_trans _ _ _ _ _ _ _ H1 H2) as H12.
        destruct (get_container_logs w (PyStr.str_opt container_id) (log_lines cfg) st1)
          as [[logs|e] st2]; cbn [snd] in *; exists (a1 ++ a2)%list, 2%nat.
        -- split; [apply enriches_clock; exact H12|].
           split; [lia|]. split; [discriminate|]. split; [discriminate|].
           intros m st' H. injection H as <- <-. cbn [nows ts].
           repeat apply conj; [congruence | congruence | reflexivity].
        -- split; [exact H12|].
           split; [lia|]. split; [discriminate|]. split; discriminate.
      * exists a1, 1%nat. split; [apply enriches_clock; exact H1|].
        split; [lia|]. split; [lia|]. split; [discriminate|].
        intros m st' H. injection H as <- <-. cbn [nows ts].
        repeat apply conj; [congruence | congruence | reflexivity].
    + exists a1, 1%nat. split; [exact H1|].
      split; [lia|]. split; [lia|]. split; discriminate.
  - exists [], 0%nat.
    assert (Hs : forall st0, enriches st0
               (mkState (trace st0) (gets st0) (posts st0) (sleeps st0) (S (nows st0)) (subs st0))
               [] 0).
    { intros st0. apply enriches_clock, enriches_refl. }
    destruct (wants_logs status_text); cbn [snd];
      (split; [apply Hs|]); (split; [lia|]); (split; [lia|]);
      (split; [intros _; split; reflexivity|]);
      intros m st' H; injection H as <- <-; repeat apply conj; reflexivity.
Qed.

(** ** Bounds of the delivery loop *)

(** An effect the delivery loop may perform for [message]. *)
Definition delivery_effect (cfg : Config) (message : Attachment) (e : effect) : Prop :=
  match e with
  | Post url m => url = slack_webhook_url cfg /\ m = message
  | Sleep seconds => seconds = retry_interval cfg
  | Log _ _ => True
  | _ => False
  end.

Definition count_posts (l : list effect) : nat :=
  List.length (List.filter (fun e => match e with Post _ _ => true | _ => false end) l).

Lemma count_posts_app l1 l2 : count_posts (l1 ++ l2) = (count_posts l1 + count_posts l2)%nat.
Proof. unfold count_posts. rewrite List.filter_app, List.length_app. reflexivity. Qed.

Lemma send_attempts_bounded cfg w message container_name status todo :
  forall attempt st,
  exists added,
    let st' := snd (send_attempts cfg w message container_name status todo attempt st) in
    trace st' = (trace st ++ added)%list /\
    Forall (delivery_effect cfg message) added /\
    count_posts added = (posts st' - posts st)%nat /\
    (posts st <= posts st' <= posts st + todo)%nat /\
    (sleeps st <= sleeps st')%nat /\
    (sleeps st' - sleeps st <= posts st' - posts st)%nat /\
    gets st' = gets st /\ nows st' = nows st /\ subs st' = subs st.
Proof.
  induction todo as [|todo IH]; intros attempt st.
  - exists []. cbn. rewrite app_nil_r. repeat apply conj; try lia; try reflexivity. constructor.
  - cbn [send_attempts]. unfold requests_post.
    set (st1 := mkState (trace (emit (Post (slack_webhook_url cfg) message) st)) (gets st)
                  (S (posts st)) (sleeps st) (nows st) (subs st)).
    assert (Hpost : delivery_effect cfg message (Post (slack_webhook_url cfg) message))
      by (split; reflexivity).
    destruct (classify_reply (post_reply w (posts st))) as [|lv what|e].
    + exists [Post (slack_webhook_url cfg) message;
              Log INFO ("Notification sent for " +:+ container_name +:+ ": " +:+ status)].
      cbn. rewrite <- app_assoc. repeat apply conj; try lia; try reflexivity.
      repeat constructor.
    + unfold pause_between, time_sleep.
      set (st2 := log lv (attempt_failed cfg attempt what) st1).
      destruct (attempt <? max_retries cfg - 1).
      * destruct (retry_interval cfg <? 0).
        -- exists [Post (slack_webhook_url cfg) message;
                   Log lv (attempt_failed cfg attempt what)].
           cbn. rewrite <- app_assoc. repeat apply conj; try lia; try reflexivity.
           repeat constructor.
        -- destruct (sleep_interrupted w (sleeps st2)).
           ++ exists [Post (slack_webhook_url cfg) message;
                      Log lv (attempt_failed cfg attempt what); Sleep (retry_interval cfg)].
              cbn. rewrite <- !app_assoc. repeat apply conj; try lia; try reflexivity.
              repeat constructor.
           ++ match goal with
              | |- context [send_attempts _ _ _ _ _ todo ?a ?s] =>
                  destruct (IH a s) as (added & Ht & Hf & Hc & Hp & Hs1 & Hs2 & Hg & Hn & Hu)
              end.
              cbn [trace gets posts sleeps nows subs emit log st1 st2] in *.
              match goal with
              | |- context [send_attempts _ _ _ _ _ todo ?a ?s] =>
                  set (r := send_attempts cfg w message container_name status todo a s) in *
              end.
              exists (Post (slack_webhook_url cfg) message
                      :: Log lv (attempt_failed cfg attempt what)
                      :: Sleep (retry_interval cfg) :: added).
              cbn zeta. rewrite Ht, <- !app_assoc.
              repeat apply conj; try lia; try congruence; try reflexivity.
              ** repeat constructor; assumption.
              ** change (count_posts (?a :: ?b :: ?c :: added))
                   with (S (count_posts added)). lia.
      * destruct (IH (attempt + 1) st2) as (added & Ht & Hf & Hc & Hp & Hs1 & Hs2 & Hg & Hn & Hu).
        cbn [trace gets posts sleeps nows subs emit log st1 st2] in *.
        match goal with
        | |- context [send_attempts _ _ _ _ _ todo ?a ?s] =>
            set (r := send_attempts cfg w message container_name status todo a s) in *
        end.
        exists (Post (slack_webhook_url cfg) message
                :: Log lv (attempt_failed cfg attempt what) :: added).
        cbn zeta. rewrite Ht, <- !app_assoc.
        repeat apply conj; try lia; try congruence; try reflexivity.
        -- repeat constructor; assumption.
        -- change (count_posts (?a :: ?b :: added)) with (S (count_posts added)). lia.
    + exists [Post (slack_webhook_url cfg) message].
      cbn. repeat apply conj; try lia; try reflexivity. repeat constructor.
Qed.

Lemma lookups_hold_no_post l :
  forallb is_lookup_or_log l = true ->
  count_posts l = 0%nat /\
  (forall u m, ~ In (Post u m) l) /\ (forall s, ~ In (Sleep s) l).
Proof.
  induction l as [|e l IH]; cbn [forallb]; intros H.
  - repeat apply conj; [reflexivity | intros u m [] | intros s []].
  - apply andb_prop in H as [He Hl]. destruct (IH Hl) as (Hc & Hp & Hs).
    repeat apply conj.
    + destruct e; try discriminate; exact Hc.
    + intros u m [->|Hin]; [discriminate | exact (Hp u m Hin)].
    + intros s [->|Hin]; [discriminate | exact (Hs s Hin)].
Qed.

(** One call of [send_slack_message] posts at most [max_retries] times,
    never sleeps more often than it posts, and opens no subscription;
    the message is built once, so every post of the call carries the same
    attachment (the same timestamp included) to the configured URL, and
    every sleep lasts the configured retry interval.  This holds whatever
    the endpoint and the Docker daemon answer. *)
Theorem delivery_posts_one_message cfg w container_name status container_id exit_code st :
  exists added,
    let st' := snd (send_slack_message cfg w container_name status container_id exit_code st) in
    trace st' = (trace st ++ added)%list /\
    count_posts added = (posts st' - posts st)%nat /\
    (posts st <= posts st' <= posts st + Z.to_nat (max_retries cfg))%nat /\
    (sleeps st <= sleeps st')%nat /\
    (sleeps st' - sleeps st <= posts st' - posts st)%nat /\
    subs st' = subs st /\
    (forall u1 m1 u2 m2,
       In (Post u1 m1) added -> In (Post u2 m2) added ->
       m1 = m2 /\ u1 = slack_webhook_url cfg /\ u2 = slack_webhook_url cfg) /\
    (forall s, In (Sleep s) added -> s = retry_interval cfg).
Proof.
  unfold send_slack_message.
  destruct (payload_enriches cfg w container_name status container_id exit_code st)
    as (a1 & k & (T1 & F1 & G1 & P1 & S1 & U1)).
  destruct (lookups_hold_no_post a1 F1) as (C1 & NP1 & NS1).
  destruct (_create_slack_payload cfg w container_name status container_id exit_code st)
    as [[m|e] st1]; cbn [snd] in *.
  - destruct (send_attempts_bounded cfg w m container_name status
                (Z.to_nat (max_retries cfg)) 0 st1)
      as (a2 & T2 & F2 & C2 & P2 & S2a & S2b & G2 & N2 & U2).
    cbn zeta in *.
    set (r := send_attempts cfg w m container_name status (Z.to_nat (max_retries cfg)) 0 st1)
      in *.
    exists (a1 ++ a2)%list. cbn zeta.
    assert (Hin : forall u x, In (Post u x) (a1 ++ a2) -> x = m /\ u = slack_webhook_url cfg).
    { intros u x Hin. apply in_app_or in Hin as [Hin|Hin]; [destruct (NP1 u x Hin)|].
      rewrite Forall_forall in F2. destruct (F2 _ Hin) as [-> ->].
      split; reflexivity. }
    repeat apply conj; try lia; try congruence.
    + rewrite T2, T1, app_assoc. reflexivity.
    + rewrite count_posts_app. lia.
    + intros u1 m1 u2 m2 H1 H2. destruct (Hin _ _ H1) as [-> ->].
      destruct (Hin _ _ H2) as [-> ->]. repeat apply conj; reflexivity.
    + intros s Hin'. apply in_app_or in Hin' as [Hin'|Hin']; [destruct (NS1 s Hin')|].
      rewrite Forall_forall in F2. exact (F2 _ Hin').
  - exists a1. cbn zeta. repeat apply conj; try lia; try congruence.
    + intros u1 m1 u2 m2 H1. destruct (NP1 _ _ H1).
    + intros s Hin. destruct (NS1 _ Hin).
Qed.

(** ** Edge cases of the configuration values *)

Lemma handle_event_sends cfg w event st mapped_status container_name :
  action_mapping (Action event) = Some mapped_status ->
  _format_container_name (Actor_Attributes event) = Ok container_name ->
  is_clean_destroy (Action event) (Actor_Attributes event) = false ->
  handle_event cfg w event st
  = match send_slack_message cfg w container_name mapped_status (Some (Actor_ID event))
            (exit_code_of (Action event) (Actor_Attributes event)) st with
    | (Ok _, st1) => (Ok tt, st1)
    | (Raise e, st1) =>
        if is_class SlackNotificationError e
        then (Ok tt, emit (failed_to_send e) st1)
        else (Raise e, st1)
    end.
Proof.
  intros Hmap Hname Hclean. unfold handle_event.
  rewrite Hmap, Hname, (dispatch_sends _ _ _ _ _ _ _ _ Hclean). reflexivity.
Qed.

(** With [max_retries] zero or negative the loop body never runs: no
    request is made for any event; a message is still built, and the
    event handler logs the delivery as failed. *)
Theorem zero_retries_never_posts cfg w :
  max_retries cfg <= 0 ->
  (forall container_name status container_id exit_code st,
     posts (snd (send_slack_message cfg w container_name status container_id exit_code st))
     = posts st) /\
  (forall container_name status container_id exit_code st m st1,
     _create_slack_payload cfg w container_name status container_id exit_code st = (Ok m, st1) ->
     send_slack_message cfg w container_name status container_id exit_code st
     = (Raise (gave_up cfg), st1)) /\
  (forall event st mapped_status container_name m st1,
     action_mapping (Action event) = Some mapped_status ->
     _format_container_name (Actor_Attributes event) = Ok container_name ->
     is_clean_destroy (Action event) (Actor_Attributes event) = false ->
     _create_slack_payload cfg w container_name mapped_status (Some (Actor_ID event))
       (exit_code_of (Action event) (Actor_Attributes event)) st = (Ok m, st1) ->
     handle_event cfg w event st = (Ok tt, emit (failed_to_send (gave_up cfg)) st1)).
Proof.
  intros Hn. assert (H0 : Z.to_nat (max_retries cfg) = 0%nat) by lia.
  repeat apply conj.
  - intros container_name status container_id exit_code st.
    unfold send_slack_message.
    destruct (payload_enriches cfg w container_name status container_id exit_code st)
      as (a1 & k & (_ & _ & _ & P1 & _)).
    destruct (_create_slack_payload cfg w container_name status container_id exit_code st)
      as [[m|e] st1]; cbn [snd] in *; [|exact P1].
    rewrite H0. exact P1.
  - intros container_name status container_id exit_code st m st1 Hm.
    unfold send_slack_message. rewrite Hm, H0. reflexivity.
  - intros event st mapped_status container_name m st1 Hmap Hname Hclean Hm.
    rewrite (handle_event_sends _ _ _ _ _ _ Hmap Hname Hclean).
    unfold send_slack_message. rewrite Hm, H0. reflexivity.
Qed.

Definition cfg_no_retries : Config :=
  mkConfig "https://hooks.slack.example/T0/B0" "host1" "production" 5 10 0.

Lemma zero_retries_never_posts_witness :
  max_retries cfg_no_retries <= 0 /\
  exists st1,
    handle_event cfg_no_retries world_up start_web1 init
    = (Ok tt, emit (failed_to_send (gave_up cfg_no_retries)) st1) /\
    posts st1 = 0%nat.
Proof.
  assert (Hn : max_retries cfg_no_retries <= 0) by (vm_compute; discriminate).
  split; [exact Hn|].
  destruct (zero_retries_never_posts cfg_no_retries world_up Hn) as (_ & _ & Hh).
  destruct (_create_slack_payload cfg_no_retries world_up "web1" "started" (Some "abc") None init)
    as [r st1] eqn:Hm.
  assert (Hr : exists m, r = Ok m /\ posts st1 = 0%nat)
    by (vm_compute in Hm; injection Hm as <- <-; eexists; split; reflexivity).
  destruct Hr as (m & -> & Hp).
  exists st1. split; [|exact Hp].
  apply (Hh start_web1 init "started" "web1" m st1);
    [reflexivity | vm_compute; reflexivity | reflexivity | exact Hm].
Defined.

Definition negative_sleep : exn := Exn ValueError "sleep length must be non-negative".


Definition cfg_negative_interval : Config :=
  mkConfig "https://hooks.slack.example/T0/B0" "host1" "production" 5 (-1) 3.



(** The endpoint call is interrupted by the shutdown signal. *)
Definition world_interrupted_post : World :=
  mkWorld (fun _ _ => Ok shop_api) (fun _ => PostRaises (Exn KeyboardInterrupt ""))
          (fun _ => false) (fun _ => 1700000000)
          (fun _ => ([start_web1; start_web2], StreamExhausted)).


(** ** The event loop *)


Lemma dispatch_all_raises_at cfg w pre event rest st st0 e st1 :
  dispatch_all cfg w pre st = (Ok tt, st0) ->
  handle_event cfg w event st0 = (Raise e, st1) ->
  dispatch_all cfg w (pre ++ event :: rest)%list st = (Raise e, st1).
Proof.
  revert st. induction pre as [|ev pre IH]; intros st Hpre Hev.
  - injection Hpre as <-. cbn [app dispatch_all]. rewrite Hev. reflexivity.
  - cbn [app dispatch_all] in *.
    destruct (handle_event cfg w ev st) as [[u|e0] st'] ; [|discriminate].
    apply IH; assumption.
Qed.



(** A subscription that ends without an exception is followed at once by
    the next one: no log record, no sleep.  Against a daemon whose
    subscriptions all end immediately the loop does nothing but
    subscribe. *)
Theorem exhausted_stream_resubscribes_at_once cfg w :
  (forall fuel st events st1,
     subscription w (subs st) = (events, StreamExhausted) ->
     dispatch_all cfg w events (snd (client_events w st)) = (Ok tt, st1) ->
     monitor_loop cfg w (S fuel) st = monitor_loop cfg w fuel st1) /\
  ((forall i, subscription w i = ([], StreamExhausted)) ->
   forall fuel st,
     monitor_loop cfg w fuel st
     = (Monitoring,
        mkState (trace st ++ List.repeat Subscribe fuel)%list (gets st) (posts st) (sleeps st)
                (nows st) (subs st + fuel))).
Proof.
  split.
  - intros fuel st events st1 Hsub Hd. cbn [monitor_loop]. unfold for_events.
    unfold client_events in *. rewrite Hsub. cbn [snd] in Hd. rewrite Hd. reflexivity.
  - intros Hsub fuel. induction fuel as [|fuel IH]; intros st.
    + cbn. rewrite app_nil_r, Nat.add_0_r. destruct st; reflexivity.
    + cbn [monitor_loop]. unfold for_events, client_events. rewrite Hsub.
      cbn [dispatch_all]. rewrite IH. unfold emit. cbn [trace gets posts sleeps nows subs].
      rewrite <- app_assoc. cbn [List.repeat app]. do 2 f_equal. lia.
Qed.

Definition world_spinning : World :=
  mkWorld (fun _ _ => Ok shop_api) (fun _ => Response 200 "ok") (fun _ => false)
          (fun _ => 1700000000) (fun _ => ([], StreamExhausted)).

Lemma exhausted_stream_resubscribes_at_once_witness :
  monitor_loop sample_cfg world_spinning 3 init
  = (Monitoring, mkState [Subscribe; Subscribe; Subscribe] 0 0 0 0 3).
Proof.
  destruct (exhausted_stream_resubscribes_at_once sample_cfg world_spinning) as [_ Hspin].
  rewrite (Hspin (fun _ => eq_refl) 3%nat init). reflexivity.
Defined.

(** ** The event handler *)

Definition recognized_actions : list string :=
  ["die"; "kill"; "stop"; "start"; "restart"; "pause"; "unpause"; "destroy"].

Lemma action_mapping_recognizes action :
  is_Some (action_mapping action) <-> In action recognized_actions.
Proof.
  unfold action_mapping, recognized_actions. cbn [In].
  repeat match goal with
  | |- context [String.eqb action ?s] =>
      destruct (String.eqb_spec action s); [subst; split; [intros _; tauto | intros _; eexists; reflexivity]|]
  end.
  split; [intros [x Hx]; discriminate | intros H; exfalso; intuition congruence].
Qed.

(** The recognized actions are exactly the eight of the action table;
    events with any other action are ignored altogether: a subscription of
    such events leaves the state as it was, with no lookup, no message
    and no log record. *)
Theorem unrecognized_events_ignored cfg w :
  (forall action, is_Some (action_mapping action) <-> In action recognized_actions) /\
  (forall events st,
     Forall (fun event => ~ In (Action event) recognized_actions) events ->
     dispatch_all cfg w events st = (Ok tt, st)).
Proof.
  split; [exact action_mapping_recognizes|].
  intros events st H. revert st. induction H as [|event events Hev _ IH]; intros st.
  - reflexivity.
  - cbn [dispatch_all]. unfold handle_event.
    destruct (action_mapping (Action event)) as [mapped|] eqn:Hmap.
    + exfalso. apply Hev. apply action_mapping_recognizes. eexists; exact Hmap.
    + apply IH.
Qed.

Lemma unrecognized_events_ignored_witness :
  dispatch_all sample_cfg world_up
    [mkEvent "create" "abc" (flat_attributes []); mkEvent "exec_start" "abc" (flat_attributes [])]
    init = (Ok tt, init).
Proof.
  apply (proj2 (unrecognized_events_ignored sample_cfg world_up)).
  repeat constructor; cbn; intuition discriminate.
Defined.

(** The event handler looks for compose labels under the key 'Labels'
    only.  For attributes without that key, which is how the runtime
    delivers them (labels are flat entries beside 'name' and 'exitCode'),
    the container is always named by its 'name' attribute, "Unknown" when
    there is none, even when compose labels are among the entries; the
    "project/service" form needs a 'Labels' dictionary with both parts
    non-empty. *)
Theorem container_name_from_flat_attributes :
  (forall others,
     _format_container_name (mkAttributes None others)
     = Ok (default "Unknown" (others !! "name"))) /\
  (forall labels others container_name,
     _format_container_name (mkAttributes (Some (LabelsDict labels)) others)
     = Ok container_name ->
     (PyStr.truthy (compose_project labels) = true /\
      PyStr.truthy (compose_service labels) = true /\
      container_name = PyStr.str_opt (compose_project labels) +:+ "/"
                       +:+ PyStr.str_opt (compose_service labels)) \/
     ((PyStr.truthy (compose_project labels) = false \/
       PyStr.truthy (compose_service labels) = false) /\
      container_name = default "Unknown" (others !! "name"))) /\
  _format_container_name
    (flat_attributes [("name", "shop_api_1"); (project_key, "shop"); (service_key, "api")])
  = Ok "shop_api_1".
Proof.
  repeat apply conj.
  - intros others. reflexivity.
  - intros labels others container_name.
    unfold _format_container_name, _get_compose_info, labels_dict, attr_get. cbn [Labels strs].
    destruct (PyStr.truthy (compose_project labels)) eqn:Hp;
      destruct (PyStr.truthy (compose_service labels)) eqn:Hs; cbn [andb];
      intros H; injection H as <-; auto.
  - vm_compute. reflexivity.
Qed.

Lemma container_name_from_flat_attributes_witness :
  PyStr.truthy (compose_project (list_to_map [(project_key, "shop"); (service_key, "api")]))
  = true /\
  _format_container_name
    (mkAttributes (Some (LabelsDict (list_to_map [(project_key, "shop"); (service_key, "api")])))
       (list_to_map [("name", "shop_api_1")]))
  = Ok "shop/api".
Proof.
  split; [vm_compute; reflexivity|].
  destruct container_name_from_flat_attributes as (_ & Hdict & _).
  destruct (_format_container_name
              (mkAttributes
                 (Some (LabelsDict (list_to_map [(project_key, "shop"); (service_key, "api")])))
                 (list_to_map [("name", "shop_api_1")]))) as [name|e] eqn:Hn.
  - destruct (Hdict _ _ name Hn) as [(_ & _ & ->) | ([Hf|Hf] & _)].
    + vm_compute. reflexivity.
    + vm_compute in Hf. discriminate.
    + vm_compute in Hf. discriminate.
  - vm_compute in Hn. discriminate.
Defined.

(** An event whose attributes hold something other than a dictionary
    under 'Labels' (a label that is itself named "Labels" arrives as a
    string) makes the name formatting raise [AttributeError] outside the
    inner [try]: for every recognized action the handler raises before
    any lookup or message, leaving the state untouched. *)
Theorem non_dict_Labels_escapes_handler cfg w :
  forall action container_id labels others st,
    In action recognized_actions ->
    labels = LabelsNone \/ (exists s, labels = LabelsStr s) ->
    exists e,
      handle_event cfg w (mkEvent action container_id (mkAttributes (Some labels) others)) st
      = (Raise e, st) /\
      is_class AttributeError e = true /\ is_class SlackNotificationError e = false.
Proof.
  intros action container_id labels others st Hin Hl.
  apply action_mapping_recognizes in Hin as [mapped Hmap].
  unfold handle_event. cbn [Action Actor_Attributes Actor_ID]. rewrite Hmap.
  unfold _format_container_name, _get_compose_info, labels_dict. cbn [Labels].
  destruct Hl as [-> | [s ->]]; eexists; repeat apply conj; reflexivity.
Qed.

Lemma non_dict_Labels_escapes_handler_witness :
  exists e,
    handle_event sample_cfg world_up
      (mkEvent "start" "abc" (mkAttributes (Some (LabelsStr "x")) ∅)) init
    = (Raise e, init) /\ is_class AttributeError e = true.
Proof.
  destruct (non_dict_Labels_escapes_handler sample_cfg world_up "start" "abc"
              (LabelsStr "x") ∅ init) as (e & Hrun & Hcls & _).
  - cbn. tauto.
  - right. exists "x". reflexivity.
  - exists e. split; [exact Hrun | exact Hcls].
Defined.

(** ** Container details *)

Lemma lstrip_char_no_lead c s : forall t, PyStr.lstrip_char c s <> String c t.
Proof.
  induction s as [|a s IH]; intros t; cbn [PyStr.lstrip_char]; [discriminate|].
  destruct (Ascii.eqb_spec a c) as [->|Hne]; [apply IH|].
  intros H. injection H as H _. contradiction.
Qed.

(** Details that are returned non-empty come from a successful lookup of
    that container: the name is the inspected name without leading
    slashes, project and service are the compose information of the
    inspected labels, the image is the 'Image' entry, and the compose flag
    holds exactly when project and service are both non-empty.  Exactly
    one lookup was made and nothing was logged. *)
Theorem details_reflect_inspection w :
  forall container_id st d st',
    _get_container_details w container_id st = (Ok (Some d), st') ->
    exists c,
      containers_get w (gets st) container_id = Ok c /\
      d_name d = PyStr.lstrip_char "/" (Name (attrs c)) /\
      (forall t, d_name d <> String "/" t) /\
      _get_compose_info (Config_ (attrs c)) = Ok (d_project d, d_service d) /\
      strs (Config_ (attrs c)) !! "Image" = Some (d_image d) /\
      d_compose d = (PyStr.truthy (d_project d) && PyStr.truthy (d_service d))%bool /\
      (d_compose d = true <-> (d_project d <> None /\ d_project d <> Some "" /\
                               d_service d <> None /\ d_service d <> Some "")) /\
      st' = snd (client_containers_get w container_id st).
Proof.
  intros container_id st d st'.
  unfold _get_container_details, _get_container_details_try, client_containers_get.
  cbn [snd].
  destruct (containers_get w (gets st) container_id) as [c|e].
  - destruct (_get_compose_info (Config_ (attrs c))) as [[project service]|e] eqn:Hc.
    + destruct (strs (Config_ (attrs c)) !! "Image") as [image|] eqn:Hi.
      * intros H. injection H as <- <-. exists c. cbn [d_name d_project d_service d_image d_compose].
        repeat apply conj; try reflexivity; try assumption.
        -- apply lstrip_char_no_lead.
        -- intros H. apply andb_prop in H as [H1 H2].
           destruct project as [[|a p]|], service as [[|b s]|]; try discriminate;
             repeat apply conj; discriminate.
        -- intros (H1 & H2 & H3 & H4).
           destruct project as [[|a p]|], service as [[|b s]|]; try contradiction; reflexivity.
      * destruct (is_Exception _); discriminate.
    + destruct (is_Exception e); discriminate.
  - destruct (is_Exception e); discriminate.
Qed.

Lemma details_reflect_inspection_witness :
  exists d st',
    _get_container_details world_up "abc" init = (Ok (Some d), st') /\
    d_name d = "shop_api_1" /\ d_compose d = true.
Proof.
  destruct (_get_container_details world_up "abc" init) as [r st'] eqn:Hrun.
  assert (Hr : exists d, r = Ok (Some d))
    by (vm_compute in Hrun; injection Hrun as <- _; eexists; reflexivity).
  destruct Hr as [d ->]. exists d, st'. split; [reflexivity|].
  destruct (details_reflect_inspection world_up "abc" init d st' Hrun)
    as (c & Hget & Hname & _ & Hinfo & _ & Hcompose & _).
  injection Hget as <-. split; [exact Hname|].
  assert (Hk : _get_compose_info (Config_ (attrs shop_api)) = Ok (Some "shop", Some "api"))
    by (vm_compute; reflexivity).
  rewrite Hk in Hinfo. injection Hinfo as Hp Hs. rewrite Hcompose, <- Hp, <- Hs. reflexivity.
Defined.

(** A container that is found but whose inspection lacks the 'Image'
    entry, or whose 'Labels' entry is not a dictionary ([null] for a
    container without labels), gives the empty details as well: the
    [KeyError] or [AttributeError] is caught and logged. *)
Theorem incomplete_inspection_gives_empty_details w :
  forall container_id st c,
    containers_get w (gets st) container_id = Ok c ->
    (strs (Config_ (attrs c)) !! "Image" = None \/
     Labels (Config_ (attrs c)) = Some LabelsNone \/
     exists s, Labels (Config_ (attrs c)) = Some (LabelsStr s)) ->
    exists e,
      _get_container_details w container_id st
      = (Ok None,
         log ERROR ("Error getting container details: " +:+ exn_str e)
           (snd (client_containers_get w container_id st))) /\
      (is_class KeyError e = true \/ is_class AttributeError e = true).
Proof.
  intros container_id st c Hget Hc.
  unfold _get_container_details, _get_container_details_try, client_containers_get.
  cbn [snd]. rewrite Hget. unfold _get_compose_info, labels_dict.
  destruct (Labels (Config_ (attrs c))) as [[|s|d]|] eqn:Hl.
  - eexists. split; [reflexivity | right; reflexivity].
  - eexists. split; [reflexivity | right; reflexivity].
  - destruct Hc as [Hi | [Hc | [s Hc]]]; try discriminate.
    rewrite Hi. eexists. split; [reflexivity | left; reflexivity].
  - destruct Hc as [Hi | [Hc | [s Hc]]]; try discriminate.
    rewrite Hi. eexists. split; [reflexivity | left; reflexivity].
Qed.

Definition unlabelled_container : Container :=
  mkContainer (mkInspect "/web1" (mkAttributes (Some LabelsNone) (list_to_map [("Image", "nginx")]))
                 "2024-01-05T03:00:00Z" "running" "bridge")
              (fun _ => Ok "").

Definition world_unlabelled : World :=
  mkWorld (fun _ _ => Ok unlabelled_container) (fun _ => Response 200 "ok") (fun _ => false)
          (fun _ => 1700000000) (fun _ => ([], StreamExhausted)).

Lemma incomplete_inspection_gives_empty_details_witness :
  exists st', _get_container_details world_unlabelled "abc" init = (Ok None, st').
Proof.
  destruct (incomplete_inspection_gives_empty_details world_unlabelled "abc" init
              unlabelled_container) as (e & Hrun & _).
  - reflexivity.
  - right. left. reflexivity.
  - eexists. exact Hrun.
Defined.

(** ** Status rendering of the recognized actions *)

Lemma action_mapping_cases action mapped :
  action_mapping action = Some mapped ->
  (action = "die" /\ mapped = "exited") \/ (action = "kill" /\ mapped = "killed") \/
  (action = "stop" /\ mapped = "stopped") \/ (action = "start" /\ mapped = "started") \/
  (action = "restart" /\ mapped = "restarted") \/ (action = "pause" /\ mapped = "paused") \/
  (action = "unpause" /\ mapped = "unpaused") \/ (action = "destroy" /\ mapped = "removed").
Proof.
  unfold action_mapping.
  repeat match goal with
  | |- context [String.eqb action ?s] =>
      destruct (String.eqb_spec action s);
      [subst; intros H; injection H as <-; tauto|]
  end.
  discriminate.
Qed.

(** Of the eight statuses that the event loop produces, the status table
    of the message builder knows four: [start], [die], [kill] and [stop]
    get their label, icon and colour; [restart], [pause], [unpause] and
    [destroy] fall back to the upper-cased status with the neutral bullet
    and the grey default colour.  The exit code, which is passed along
    for [die], [kill] and [destroy], shows in the status line for [die]
    only. *)
Theorem recognized_actions_rendering action mapped :
  action_mapping action = Some mapped ->
  (In action ["die"; "kill"; "stop"; "start"] ->
     snd (status_mapping mapped) <> "•" /\ colors (fst (status_mapping mapped)) <> "#cccccc") /\
  (In action ["restart"; "pause"; "unpause"; "destroy"] ->
     status_mapping mapped = (PyStr.upper mapped, "•") /\
     colors (fst (status_mapping mapped)) = "#cccccc") /\
  (forall code,
     status_display (fst (status_mapping mapped)) (Some code) <> fst (status_mapping mapped)
     <-> action = "die") /\
  (is_exit_action action = true <-> In action ["die"; "kill"; "destroy"]).
Proof.
  intros H.
  assert (Hdisplay : forall text code,
            PyStr.contains "EXIT" text = false -> status_display text (Some code) = text).
  { intros text code Hc. unfold status_display. rewrite Hc. reflexivity. }
  destruct (action_mapping_cases _ _ H)
    as [[-> ->]|[[-> ->]|[[-> ->]|[[-> ->]|[[-> ->]|[[-> ->]|[[-> ->]|[-> ->]]]]]]]];
    (split; [|split; [|split]]);
    try (intros Hin; first
           [ split; [ intros Hq; vm_compute in Hq; discriminate Hq
                    | intros Hq; vm_compute in Hq; discriminate Hq ]
           | split; vm_compute; reflexivity
           | exfalso; cbn in Hin; intuition discriminate ]);
    try (split; [ intros Hx; first [ discriminate Hx | cbn; tauto ]
                | intros Hin; first [ reflexivity | exfalso; cbn in Hin; intuition discriminate ] ]).
  all: intros code; split;
    [ intros Hne; first [ reflexivity | exfalso; apply Hne; apply Hdisplay; reflexivity ]
    | intros Heq; first [ discriminate Heq
                        | intros Hd; cbn in Hd; injection Hd as Hd; discriminate Hd ] ].
Qed.

Lemma recognized_actions_rendering_witness :
  status_mapping "restarted" = ("RESTARTED", "•") /\ colors "RESTARTED" = "#cccccc".
Proof.
  destruct (recognized_actions_rendering "restart" "restarted" eq_refl) as (_ & Hfall & _).
  apply Hfall. cbn. tauto.
Defined.

(** ** Title and service line *)

Lemma details_compose_flag w container_id st d st' :
  _get_container_details w container_id st = (Ok (Some d), st') ->
  d_compose d = (PyStr.truthy (d_project d) && PyStr.truthy (d_service d))%bool.
Proof.
  unfold _get_container_details, _get_container_details_try.
  destruct (client_containers_get w container_id st) as [[c|e] st1].
  - destruct (_get_compose_info (Config_ (attrs c))) as [[project service]|e].
    + destruct (strs (Config_ (attrs c)) !! "Image").
      * intros H. injection H as <- _. reflexivity.
      * destruct (is_Exception _); discriminate.
    + destruct (is_Exception e); discriminate.
  - destruct (is_Exception e); discriminate.
Qed.

(** Title and service line of a message agree on the group identity: the
    title reads "Docker Compose Service Event" exactly when the details
    hold a non-empty project and a non-empty service, and then the text
    opens with "*Service:* `project/service`"; otherwise the title reads
    "Docker Container Event" and the text opens with the container name
    that the caller passed. *)
Theorem title_matches_service_line cfg w :
  forall container_name status container_id exit_code st m st',
    _create_slack_payload cfg w container_name status container_id exit_code st = (Ok m, st') ->
    (exists p s rest,
       p <> "" /\ s <> "" /\
       title m = "Docker Compose Service Event " +:+ snd (status_mapping status) /\
       text m = "*Service:* `" +:+ p +:+ "/" +:+ s +:+ "`" +:+ String newline rest) \/
    (exists rest,
       title m = "Docker Container Event " +:+ snd (status_mapping status) /\
       text m = "*Service:* `" +:+ container_name +:+ "`" +:+ String newline rest).
Proof.
  intros container_name status container_id exit_code st m st' H.
  apply payload_shape in H as (details & st1 & block & st2 & Hd & _ & ->).
  cbn [title text]. unfold standard_fields, title_of.
  destruct (details_compose details) eqn:Hc.
  - left. destruct details as [d|]; [|discriminate]. cbn [details_compose] in Hc.
    destruct (PyStr.truthy container_id); [|discriminate].
    rewrite (details_compose_flag _ _ _ _ _ Hd) in Hc. apply andb_prop in Hc as [Hp Hs].
    cbn [details_project details_service].
    destruct (d_project d) as [p|]; [|discriminate].
    destruct (d_service d) as [s|]; [|discriminate].
    exists p, s. eexists. repeat apply conj.
    + intros ->. discriminate.
    + intros ->. discriminate.
    + reflexivity.
    + cbn [app PyStr.str_opt]. unfold PyStr.join. cbn [String.concat].
      rewrite !string_app_assoc. reflexivity.
  - right. eexists. split; [reflexivity|].
    cbn [app]. unfold PyStr.join. cbn [String.concat]. rewrite !string_app_assoc. reflexivity.
Qed.

Lemma title_matches_service_line_witness :
  exists m st',
    _create_slack_payload sample_cfg world_up "web1" "started" (Some "abc") None init
    = (Ok m, st') /\
    title m = "Docker Compose Service Event ✅" /\
    String.prefix "*Service:* `shop/api`" (text m) = true.
Proof.
  destruct (_create_slack_payload sample_cfg world_up "web1" "started" (Some "abc") None init)
    as [r st'] eqn:Hrun.
  assert (Hr : exists m, r = Ok m /\ title m = "Docker Compose Service Event ✅"
                         /\ String.prefix "*Service:* `shop/api`" (text m) = true)
    by (vm_compute in Hrun; injection Hrun as <- _; eexists; repeat split; reflexivity).
  destruct Hr as (m & -> & Ht & Hx). exists m, st'.
  destruct (title_matches_service_line sample_cfg world_up _ _ _ _ _ _ _ Hrun)
    as [(p & s & rest & _ & _ & _ & _) | (rest & Ht' & _)].
  - repeat split; [exact Ht | exact Hx].
  - rewrite Ht in Ht'. vm_compute in Ht'. discriminate.
Defined.

(** ** The log tail *)

Lemma split_pieces_no_char c s :
  Forall (fun piece => has_char c piece = false) (PyStr.split c s).
Proof.
  induction s as [|a s IH]; cbn [PyStr.split].
  - repeat constructor.
  - destruct (Ascii.eqb_spec a c) as [->|Hne].
    + constructor; [reflexivity | exact IH].
    + pose proof (split_nonempty c s) as Hn.
      destruct (PyStr.split c s) as [|piece rest]; [congruence|].
      inversion IH as [|? ? Hp Hr]; subst. constructor; [|exact Hr].
      cbn. destruct (Ascii.eqb_spec a c); [contradiction | exact Hp].
Qed.

Lemma split_app_sep c x rest :
  has_char c x = false ->
  PyStr.split c (x +:+ String c rest) = x :: PyStr.split c rest.
Proof.
  induction x as [|a x IH]; cbn [has_char]; intros H.
  - change ("" +:+ String c rest) with (String c rest). cbn [PyStr.split].
    rewrite Ascii.eqb_refl. reflexivity.
  - apply orb_false_elim in H as [Ha Hx].
    change (String a x +:+ String c rest) with (String a (x +:+ String c rest)).
    cbn [PyStr.split]. rewrite Ha, (IH Hx). reflexivity.
Qed.

(** Joining pieces that are free of the separator and splitting again
    gives the pieces back. *)
Lemma split_join c l :
  l <> [] ->
  Forall (fun piece => has_char c piece = false) l ->
  PyStr.split c (PyStr.join (String c "") l) = l.
Proof.
  intros Hne H. induction H as [|x l Hx Hl IH]; [congruence|].
  destruct l as [|y l].
  - cbn. apply split_no_char. exact Hx.
  - unfold PyStr.join in *.
    change (String.concat (String c "") (x :: y :: l))
      with (x +:+ String c (String.concat (String c "") (y :: l))).
    rewrite (split_app_sep _ _ _ Hx), IH by discriminate. reflexivity.
Qed.

Lemma slice_last_suffix {A} (k : Z) (l : list A) :
  exists dropped, l = (dropped ++ PyStr.slice_last k l)%list.
Proof.
  unfold PyStr.slice_last. eexists. symmetry. apply List.firstn_skipn.
Qed.

Lemma slice_last_length {A} (k : Z) (l : list A) :
  (0 < k -> List.length (PyStr.slice_last k l) = Nat.min (Z.to_nat k) (List.length l)) /\
  (k = 0 -> PyStr.slice_last k l = l) /\
  (k < 0 -> List.length (PyStr.slice_last k l)
            = (List.length l - Z.to_nat (- k))%nat).
Proof.
  unfold PyStr.slice_last. repeat apply conj; intros Hk.
  - replace (- k <? 0) with true by (symmetry; apply Z.ltb_lt; lia).
    rewrite List.length_skipn. lia.
  - subst k. change (- 0 <? 0) with false. cbv iota.
    replace (Z.to_nat (Z.min (- 0) (Z.of_nat (List.length l)))) with 0%nat by lia.
    reflexivity.
  - replace (- k <? 0) with false by (symmetry; apply Z.ltb_ge; lia).
    rewrite List.length_skipn. lia.
Qed.

Lemma format_log_line_keeps_one_line line out :
  format_log_line line = Ok out ->
  has_char newline line = false -> has_char newline out = false.
Proof.
  unfold format_log_line.
  destruct (format_log_line_inner_cases line)
    as [[-> _] | (tok & message & t & _ & Hl & _ & ->)]; intros H; injection H as <-.
  - auto.
  - intros Hnl. rewrite Hl, has_char_app in Hnl. apply orb_false_elim in Hnl as [_ Hm].
    cbn in Hm. rewrite !has_char_app, strftime_no_newline. cbn. exact Hm.
Qed.

Lemma format_log_lines_spec lines :
  Forall (fun line => has_char newline line = false) lines ->
  exists outs,
    format_log_lines lines = Ok outs /\
    Forall2 (fun line out => format_log_line line = Ok out) lines outs /\
    Forall (fun out => has_char newline out = false) outs.
Proof.
  induction 1 as [|line rest Hline Hrest (outs & Hrun & Hall & Hnl)].
  - exists []. repeat apply conj; [reflexivity | constructor | constructor].
  - cbn [format_log_lines].
    destruct (format_log_line line) as [out|e] eqn:Hout.
    + rewrite Hrun. exists (out :: outs). repeat apply conj; [reflexivity | |].
      * constructor; assumption.
      * constructor; [eapply format_log_line_keeps_one_line; eassumption | exact Hnl].
    + exfalso. unfold format_log_line in Hout.
      destruct (format_log_line_inner_cases line)
        as [[Hin _] | (tok & message & t & _ & _ & _ & Hin)]; rewrite Hin in Hout; discriminate.
Qed.



(** * Start-up: configuration, connection and [main] *)

(** ** [int] of a decimal text *)

Module PyInt.

(** The digits of a text in which single underscores may separate
    digits; [None] when an underscore does not stand between two
    digits. *)
Fixpoint drop_underscores (prev_digit : bool) (s : string) : option string :=
  match s with
  | EmptyString => Some EmptyString
  | String a r =>
      if Ascii.eqb a "_" then
        if prev_digit then
          match r with
          | String b _ => if DateTime.is_digit b then drop_underscores false r else None
          | EmptyString => None
          end
        else None
      else option_map (String a) (drop_underscores (DateTime.is_digit a) r)
  end.

(** The value of an unsigned decimal text, [None] when it is empty or
    holds anything but digits. *)
Definition unsigned (s : string) : option Z :=
  match drop_underscores false s with
  | Some EmptyString | None => None
  | Some ds => option_map Z.of_uint (NilEmpty.uint_of_string ds)
  end.

(** ['abc'] as [repr] shows a text without quotes, backslashes or
    control characters. *)
Definition repr (s : string) : string := "'" +:+ s +:+ "'".

Definition invalid_literal (s : string) : exn :=
  Exn ValueError ("invalid literal for int() with base 10: " +:+ repr s).

(** [int(s)]: surrounding whitespace is dropped, one sign is allowed. *)
Definition int (s : string) : result Z :=
  let t := PyStr.strip s in
  let value :=
    match t with
    | String "-" r => option_map Z.opp (unsigned r)
    | String "+" r => unsigned r
    | _ => unsigned t
    end in
  match value with
  | Some z => Ok z
  | None => Raise (invalid_literal s)
  end.

End PyInt.

Example int_examples :
  PyInt.int "5" = Ok 5 /\ PyInt.int " 10 " = Ok 10 /\ PyInt.int "-3" = Ok (-3) /\
  PyInt.int "+1_000" = Ok 1000 /\ PyInt.int "007" = Ok 7 /\
  PyInt.int "" = Raise (PyInt.invalid_literal "") /\
  PyInt.int "1__0" = Raise (PyInt.invalid_literal "1__0") /\
  PyInt.int "_1" = Raise (PyInt.invalid_literal "_1") /\
  PyInt.int "1_" = Raise (PyInt.invalid_literal "1_") /\
  PyInt.int "3.5" = Raise (PyInt.invalid_literal "3.5") /\
  PyInt.int "ten" = Raise (PyInt.invalid_literal "ten").
Proof. repeat split; vm_compute; reflexivity. Qed.

(** ** The process environment *)

(** What [from dotenv import load_dotenv] and the call come to. *)
Inductive DotenvOutcome :=
| DotenvNotInstalled            (* [ImportError] *)
| DotenvLoaded (found : bool).  (* the value [load_dotenv()] returns *)

(** What [docker.from_env()] followed by [client.ping()] comes to. *)
Inductive ConnectOutcome :=
| Connected
| RaisesDockerException (msg : string)
| RaisesOther (e : exn).

Record Startup := mkStartup {
  dotenv : DotenvOutcome;
  environ : gmap string string;     (* [os.environ] once [load_dotenv] has run *)
  gethostname : string;             (* [socket.gethostname()] *)
  connect : ConnectOutcome
}.

(** The exceptions of the start-up phase. *)
Inductive StartupError :=
| ConfigurationError (msg : string)
| DockerMonitorError (msg : string)
| Unexpected (e : exn).

Inductive startup_result (A : Type) :=
| Started (a : A)
| Failed_ (err : StartupError).
Arguments Started {A} a.
Arguments Failed_ {A} err.

Definition webhook_missing : string :=
  "SLACK_WEBHOOK_URL not found in environment or .env file".

(** The integer settings, read in the order of lines 108-110. *)
Definition read_integers (env : gmap string string) : result (Z * Z * Z) :=
  match PyInt.int (default "5" (env !! "LOG_LINES")) with
  | Raise e => Raise e
  | Ok log_lines_ =>
      match PyInt.int (default "10" (env !! "RETRY_INTERVAL")) with
      | Raise e => Raise e
      | Ok retry_interval_ =>
          match PyInt.int (default "3" (env !! "MAX_RETRIES")) with
          | Raise e => Raise e
          | Ok max_retries_ => Ok (log_lines_, retry_interval_, max_retries_)
          end
      end
  end.

(** The body of the outer [try] of [_load_configuration]. *)
Definition _load_configuration_try (s : Startup) (st : State) : result Config * State :=
  let st1 :=
    match dotenv s with
    | DotenvNotInstalled =>
        log INFO "python-dotenv not installed, using environment variables" st
    | DotenvLoaded true =>
        log INFO ("Loaded webhook URL: "
                  +:+ default "Not found" (environ s !! "SLACK_WEBHOOK_URL"))
          (log INFO "Loaded configuration from .env file" st)
    | DotenvLoaded false => st
    end in
  let url := environ s !! "SLACK_WEBHOOK_URL" in
  if negb (PyStr.truthy url) then (Raise (Exn ValueError webhook_missing), st1)
  else
    let st2 := log INFO "Successfully loaded Slack webhook URL" st1 in
    let hostname_ := default (gethostname s) (environ s !! "MONITOR_HOST") in
    let environment_ := default "production" (environ s !! "MONITOR_ENV") in
    match read_integers (environ s) with
    | Raise e => (Raise e, st2)
    | Ok (log_lines_, retry_interval_, max_retries_) =>
        (Ok (mkConfig (PyStr.str_opt url) hostname_ environment_
               log_lines_ retry_interval_ max_retries_),
         log INFO ("Log lines: " +:+ PyStr.of_Z log_lines_)
           (log INFO ("Environment: " +:+ environment_)
              (log INFO ("Hostname: " +:+ hostname_)
                 (log INFO "Current configuration:" st2))))
    end.

(** [_load_configuration]: every [Exception] becomes a
    [ConfigurationError]. *)
Definition _load_configuration (s : Startup) (st : State) : startup_result Config * State :=
  match _load_configuration_try s st with
  | (Ok cfg, st1) => (Started cfg, st1)
  | (Raise e, st1) =>
      if is_Exception e
      then (Failed_ (ConfigurationError ("Failed to load configuration: " +:+ exn_str e)),
            log ERROR ("Configuration error details: " +:+ exn_str e) st1)
      else (Failed_ (Unexpected e), st1)
  end.

(** [_initialize_docker_client] *)
Definition _initialize_docker_client (s : Startup) (cfg : Config) (st : State)
  : startup_result unit * State :=
  match connect s with
  | Connected =>
      (Started tt,
       log INFO ("Successfully connected to Docker daemon on " +:+ hostname cfg) st)
  | RaisesDockerException msg =>
      (Failed_ (DockerMonitorError ("Failed to connect to Docker daemon: " +:+ msg)), st)
  | RaisesOther e => (Failed_ (Unexpected e), st)
  end.

(** [DockerSlackMonitor()] *)
Definition DockerSlackMonitor_init (s : Startup) (st : State) : startup_result Config * State :=
  match _load_configuration s st with
  | (Started cfg, st1) =>
      match _initialize_docker_client s cfg st1 with
      | (Started _, st2) => (Started cfg, st2)
      | (Failed_ err, st2) => (Failed_ err, st2)
      end
  | (Failed_ err, st1) => (Failed_ err, st1)
  end.

(** How a run of [main] stands after [fuel] iterations of the loop. *)
Inductive MainOutcome :=
| Exit (code : Z) (critical : string)   (* [logger.critical] and [sys.exit(code)] *)
| Returned                              (* [main] returned: exit status 0 *)
| Uncaught (e : exn)                    (* the exception left [main] *)
| StillMonitoring.

Definition unexpected (e : exn) : MainOutcome :=
  if is_Exception e then Exit 3 ("Unexpected error: " +:+ exn_str e) else Uncaught e.

(** [main] *)
Definition main (s : Startup) (w : World) (fuel : nat) : MainOutcome * State :=
  match DockerSlackMonitor_init s init with
  | (Started cfg, st1) =>
      match monitor_containers cfg w fuel st1 with
      | (Monitoring, st2) => (StillMonitoring, st2)
      | (Stopped, st2) => (Returned, st2)
      | (Escaped e, st2) => (unexpected e, st2)
      end
  | (Failed_ (ConfigurationError msg), st1) => (Exit 1 ("Configuration error: " +:+ msg), st1)
  | (Failed_ (DockerMonitorError msg), st1) => (Exit 2 ("Docker error: " +:+ msg), st1)
  | (Failed_ (Unexpected e), st1) => (unexpected e, st1)
  end.

Definition sample_startup : Startup :=
  mkStartup (DotenvLoaded false)
            (list_to_map [("SLACK_WEBHOOK_URL", "https://hooks.slack.example/T0/B0")])
            "host1" Connected.

Example main_runs :
  fst (main sample_startup world_down 2) = StillMonitoring /\
  fst (_load_configuration sample_startup init) = Started sample_cfg.
Proof. split; vm_compute; reflexivity. Qed.

(** ** Reading the settings *)

Fixpoint all_digits (s : string) : bool :=
  match s with
  | EmptyString => true
  | String a r => DateTime.is_digit a && all_digits r
  end.

Lemma uint_all_digits d : all_digits (NilEmpty.string_of_uint d) = true.
Proof. induction d; cbn; auto. Qed.

Lemma digit_plain a :
  DateTime.is_digit a = true ->
  PyStr.is_space a = false /\ Ascii.eqb a "_" = false /\
  Ascii.eqb a "-" = false /\ Ascii.eqb a "+" = false.
Proof. destruct a as [[] [] [] [] [] [] [] []]; cbv; intros H; try discriminate; auto. Qed.

Lemma digits_drop_underscores s b :
  all_digits s = true -> PyInt.drop_underscores b s = Some s.
Proof.
  revert b. induction s as [|a r IH]; intros b H; [reflexivity|].
  cbn in H. apply andb_prop in H as [Ha Hr]. cbn [PyInt.drop_underscores].
  destruct (digit_plain a Ha) as (_ & -> & _). rewrite (IH _ Hr). reflexivity.
Qed.

Lemma digits_rstrip s : all_digits s = true -> PyStr.rstrip s = s.
Proof.
  induction s as [|a r IH]; intros H; [reflexivity|].
  cbn in H. apply andb_prop in H as [Ha Hr]. cbn [PyStr.rstrip]. rewrite (IH Hr).
  destruct r; [|reflexivity]. destruct (digit_plain a Ha) as (-> & _). reflexivity.
Qed.

Lemma digits_unsigned d :
  d <> Decimal.Nil ->
  PyInt.unsigned (NilEmpty.string_of_uint d) = Some (Z.of_uint d).
Proof.
  intros Hd. unfold PyInt.unsigned.
  rewrite (digits_drop_underscores _ _ (uint_all_digits d)), NilEmpty.usu.
  destruct d; try contradiction; reflexivity.
Qed.

Lemma int_of_digits a r :
  DateTime.is_digit a = true -> all_digits r = true ->
  PyInt.int (String a r)
  = match PyInt.unsigned (String a r) with
    | Some z => Ok z
    | None => Raise (PyInt.invalid_literal (String a r))
    end.
Proof.
  intros Ha Hr. unfold PyInt.int.
  assert (Hs : PyStr.strip (String a r) = String a r).
  { unfold PyStr.strip. cbn [PyStr.lstrip]. destruct (digit_plain a Ha) as (-> & _).
    apply digits_rstrip. cbn. rewrite Ha, Hr. reflexivity. }
  rewrite Hs. clear Hs.
  destruct a as [[] [] [] [] [] [] [] []]; try discriminate Ha; reflexivity.
Qed.

Lemma int_of_negative r :
  r <> "" -> all_digits r = true ->
  PyInt.int (String "-" r)
  = match PyInt.unsigned r with
    | Some z => Ok (- z)
    | None => Raise (PyInt.invalid_literal (String "-" r))
    end.
Proof.
  intros Hne Hr. unfold PyInt.int.
  assert (Hs : PyStr.strip (String "-" r) = String "-" r).
  { unfold PyStr.strip. cbn [PyStr.lstrip]. change (PyStr.is_space "-") with false. cbv iota.
    cbn [PyStr.rstrip]. rewrite (digits_rstrip _ Hr). destruct r; [contradiction | reflexivity]. }
  rewrite Hs. cbv zeta. destruct (PyInt.unsigned r); reflexivity.
Qed.

(** Reading back a printed integer: [int(str(z))] is [z], so a setting
    written as the decimal text of any integer is loaded as that
    integer. *)
Lemma int_of_Z z : PyInt.int (PyStr.of_Z z) = Ok z.
Proof.
  unfold PyStr.of_Z. destruct z as [|p|p]; [reflexivity| |].
  - cbn [Z.to_int NilZero.string_of_int]. unfold NilZero.string_of_uint.
    pose proof (Unsigned.to_uint_nonnil p) as Hn.
    pose proof (uint_all_digits (Pos.to_uint p)) as Hd.
    pose proof (digits_unsigned _ Hn) as Hu.
    destruct (Pos.to_uint p) eqn:Hp; try contradiction;
      cbn [NilEmpty.string_of_uint] in *;
      (rewrite int_of_digits; [|reflexivity|apply andb_prop in Hd as [_ Hd]; exact Hd]);
      rewrite Hu; unfold Z.of_uint; rewrite <- Hp, Unsigned.of_to; reflexivity.
  - cbn [Z.to_int NilZero.string_of_int]. unfold NilZero.string_of_uint.
    pose proof (Unsigned.to_uint_nonnil p) as Hn.
    pose proof (uint_all_digits (Pos.to_uint p)) as Hd.
    pose proof (digits_unsigned _ Hn) as Hu.
    assert (Hne : NilEmpty.string_of_uint (Pos.to_uint p) <> "")
      by (destruct (Pos.to_uint p); try contradiction; discriminate).
    replace (match Pos.to_uint p with
             | Decimal.Nil => "0"
             | _ => NilEmpty.string_of_uint (Pos.to_uint p)
             end) with (NilEmpty.string_of_uint (Pos.to_uint p))
      by (destruct (Pos.to_uint p); try contradiction; reflexivity).
    rewrite (int_of_negative _ Hne Hd), Hu. unfold Z.of_uint. rewrite Unsigned.of_to.
    reflexivity.
Qed.

Definition webhook_key : string := "SLACK_WEBHOOK_URL".

(** Without a non-empty SLACK_WEBHOOK_URL in the environment the process
    ends with exit code 1, whatever the other settings, the Docker daemon
    and the event stream are: the placeholder URL of [DEFAULT_CONFIG] is
    never used, the error is logged, and no subscription is opened. *)
Theorem missing_webhook_is_fatal s w fuel :
  PyStr.truthy (environ s !! webhook_key) = false ->
  fst (main s w fuel)
  = Exit 1 ("Configuration error: Failed to load configuration: " +:+ webhook_missing) /\
  List.last (trace (snd (main s w fuel))) Subscribe
  = Log ERROR ("Configuration error details: " +:+ webhook_missing) /\
  ~ In Subscribe (trace (snd (main s w fuel))).
Proof.
  intros H. unfold main, DockerSlackMonitor_init, _load_configuration, _load_configuration_try.
  fold webhook_key. rewrite H. cbn [negb is_Exception exn_class exn_str fst snd].
  repeat apply conj; [reflexivity | |].
  - destruct (dotenv s) as [|[]]; reflexivity.
  - destruct (dotenv s) as [|[]]; cbn; intuition discriminate.
Qed.

Lemma missing_webhook_is_fatal_witness :
  fst (main (mkStartup DotenvNotInstalled (list_to_map [("LOG_LINES", "7")]) "host1" Connected)
         world_up 5)
  = Exit 1 ("Configuration error: Failed to load configuration: " +:+ webhook_missing).
Proof.
  apply (missing_webhook_is_fatal
           (mkStartup DotenvNotInstalled (list_to_map [("LOG_LINES", "7")]) "host1" Connected)).
  reflexivity.
Defined.

Lemma int_raises s e : PyInt.int s = Raise e -> e = PyInt.invalid_literal s.
Proof.
  unfold PyInt.int. cbv zeta.
  match goal with |- match ?v with _ => _ end = _ -> _ => destruct v end;
    [discriminate | intros H; injection H as <-; reflexivity].
Qed.

Lemma read_integers_raises env e : read_integers env = Raise e -> is_Exception e = true.
Proof.
  unfold read_integers.
  destruct (PyInt.int (default "5" (env !! "LOG_LINES"))) as [x|e1] eqn:H1;
    [|intros H; injection H as <-; apply int_raises in H1; subst; reflexivity].
  destruct (PyInt.int (default "10" (env !! "RETRY_INTERVAL"))) as [y|e2] eqn:H2;
    [|intros H; injection H as <-; apply int_raises in H2; subst; reflexivity].
  destruct (PyInt.int (default "3" (env !! "MAX_RETRIES"))) as [z|e3] eqn:H3;
    [discriminate|intros H; injection H as <-; apply int_raises in H3; subst; reflexivity].
Qed.

Lemma read_integers_spec env a b c :
  read_integers env = Ok (a, b, c) <->
  PyInt.int (default "5" (env !! "LOG_LINES")) = Ok a /\
  PyInt.int (default "10" (env !! "RETRY_INTERVAL")) = Ok b /\
  PyInt.int (default "3" (env !! "MAX_RETRIES")) = Ok c.
Proof.
  unfold read_integers.
  destruct (PyInt.int (default "5" (env !! "LOG_LINES"))) as [x|e];
    [|split; [discriminate | intros (H & _); discriminate]].
  destruct (PyInt.int (default "10" (env !! "RETRY_INTERVAL"))) as [y|e];
    [|split; [discriminate | intros (_ & H & _); discriminate]].
  destruct (PyInt.int (default "3" (env !! "MAX_RETRIES"))) as [z|e];
    [|split; [discriminate | intros (_ & _ & H); discriminate]].
  split.
  - intros H. injection H as -> -> ->. repeat split; reflexivity.
  - intros (H1 & H2 & H3). injection H1 as ->. injection H2 as ->. injection H3 as ->.
    reflexivity.
Qed.



Definition startup_unchecked : Startup :=
  mkStartup (DotenvLoaded true)
    (list_to_map [(webhook_key, "https://hooks.slack.example/T0/B0");
                  ("LOG_LINES", PyStr.of_Z 0); ("RETRY_INTERVAL", PyStr.of_Z (-1));
                  ("MAX_RETRIES", PyStr.of_Z 3)])
    "host1" Connected.


(** ** How [main] ends *)

(** What can leave the loop: the shutdown signal, or the [ValueError] of
    a negative sleep. *)
Lemma monitor_loop_escapes cfg w fuel :
  forall st e,
    fst (monitor_loop cfg w fuel st) = Escaped e ->
    is_class KeyboardInterrupt e = true \/ (e = negative_sleep /\ retry_interval cfg < 0).
Proof.
  induction fuel as [|fuel IH]; intros st e; [discriminate|].
  cbn [monitor_loop].
  destruct (for_events cfg w st) as [[u|e0] st1]; [apply IH|].
  destruct (is_class KeyboardInterrupt e0) eqn:Hk; [discriminate|].
  destruct (is_Exception e0) eqn:He.
  - unfold time_sleep. destruct (retry_interval cfg <? 0) eqn:Hneg.
    + intros H. injection H as <-. right. split; [reflexivity | apply Z.ltb_lt; exact Hneg].
    + match goal with |- context [sleep_interrupted w ?i] => destruct (sleep_interrupted w i) end.
      * intros H. injection H as <-. left. reflexivity.
      * apply IH.
  - rewrite (not_Exception_is_interrupt _ He) in Hk. discriminate.
Qed.



(** * Timestamps of the Docker log stream *)

Section DockerTimestamps.
Import DateTime.

(** The text of a date and time as the runtime prints it, up to the
    seconds, followed by [suffix]. *)
Definition docker_stamp (t : datetime) (suffix : string) : string :=
  pad 4 (year t) +:+ String "-" (pad 2 (month t) +:+ String "-" (pad 2 (day t) +:+
  String "T" (pad 2 (hour t) +:+ String ":" (pad 2 (minute t) +:+ String ":"
  (pad 2 (second t) +:+ suffix))))).

Lemma m_bind_single {A B} (m : matcher A) (k : A -> matcher B) s v r :
  m s = [(v, r)] -> m_bind m k s = k v r.
Proof. intros H. unfold m_bind. rewrite H. cbn. apply app_nil_r. Qed.

Lemma digit_in_range a :
  is_digit a = true -> ((0 <=? digit_val a) && (digit_val a <=? 9))%bool = true.
Proof.
  unfold is_digit, digit_val. intros H. apply andb_prop in H as [H1 H2].
  apply Nat.leb_le in H1, H2. apply andb_true_intro. split; apply Z.leb_le; lia.
Qed.

Lemma m_digit_any a r : is_digit a = true -> m_digit 0 9 (String a r) = [(digit_val a, r)].
Proof.
  intros H. unfold m_digit. rewrite H. cbn [andb].
  pose proof (digit_in_range a H) as Hr. apply andb_prop in Hr as [-> ->]. reflexivity.
Qed.

Lemma m_Y_digits a b c d r :
  is_digit a = true -> is_digit b = true -> is_digit c = true -> is_digit d = true ->
  m_Y (String a (String b (String c (String d r))))
  = [(1000 * digit_val a + 100 * digit_val b + 10 * digit_val c + digit_val d, r)].
Proof.
  intros Ha Hb Hc Hd. unfold m_Y.
  rewrite (m_bind_single _ _ _ _ _ (m_digit_any a _ Ha)).
  rewrite (m_bind_single _ _ _ _ _ (m_digit_any b _ Hb)).
  rewrite (m_bind_single _ _ _ _ _ (m_digit_any c _ Hc)).
  rewrite (m_bind_single _ _ _ _ _ (m_digit_any d _ Hd)).
  reflexivity.
Qed.

(** A year of one to four digits is padded to four digits that read back
    as the year: checked for each of the ten thousand values. *)
Definition pad4_ok (y : Z) : bool :=
  match pad 4 y with
  | String a (String b (String c (String d EmptyString))) =>
      is_digit a && is_digit b && is_digit c && is_digit d &&
      (1000 * digit_val a + 100 * digit_val b + 10 * digit_val c + digit_val d =? y)
  | _ => false
  end.

Lemma pad4_all : forallb pad4_ok (List.map Z.of_nat (List.seq 0 (Z.to_nat 10000))) = true.
Proof. vm_compute. reflexivity. Qed.

Lemma pad4_spec y : 0 <= y <= 9999 -> pad4_ok y = true.
Proof.
  intros Hy. pose proof pad4_all as H. rewrite forallb_forall in H. apply H.
  apply in_map_iff. exists (Z.to_nat y). split; [lia|]. apply in_seq. lia.
Qed.

Lemma field_Y {B} (k : Z -> matcher B) y rest :
  0 <= y <= 9999 ->
  m_bind m_Y (fun v => m_bind (m_lit "-") (fun _ => k v)) (pad 4 y +:+ String "-" rest)
  = k y rest.
Proof.
  intros Hy. pose proof (pad4_spec y Hy) as H. unfold pad4_ok in H.
  destruct (pad 4 y) as [|a [|b [|c [|d [|x s]]]]]; try discriminate.
  apply andb_prop in H as [H Hv]. apply andb_prop in H as [H Hd].
  apply andb_prop in H as [H Hc]. apply andb_prop in H as [Ha Hb].
  apply Z.eqb_eq in Hv.
  change (String a (String b (String c (String d ""))) +:+ String "-" rest)
    with (String a (String b (String c (String d (String "-" rest))))).
  rewrite (m_bind_single _ _ _ _ _ (m_Y_digits a b c d _ Ha Hb Hc Hd)), Hv.
  apply (m_bind_single (m_lit "-") (fun _ => k y) (String "-" rest) tt rest). reflexivity.
Qed.

(** The two-digit fields, value by value. *)
Ltac enum v lo count tac :=
  lazymatch count with
  | O => exfalso; lia
  | S ?c =>
      destruct (Z.eq_dec v lo) as [->|?];
      [ tac | let lo' := eval vm_compute in (lo + 1) in enum v lo' c tac ]
  end.

Ltac run_field := cbv -[app]; cbn [app]; rewrite ?app_nil_r; reflexivity.

Lemma field_m {B} (k : Z -> matcher B) v rest :
  1 <= v <= 12 ->
  m_bind m_m (fun x => m_bind (m_lit "-") (fun _ => k x)) (pad 2 v +:+ String "-" rest)
  = k v rest.
Proof. intros Hv. enum v 1 12%nat run_field. Qed.

Lemma field_d {B} (k : Z -> matcher B) v rest :
  1 <= v <= 31 ->
  m_bind m_d (fun x => m_bind (m_lit "T") (fun _ => k x)) (pad 2 v +:+ String "T" rest)
  = k v rest.
Proof. intros Hv. enum v 1 31%nat run_field. Qed.

Lemma field_H {B} (k : Z -> matcher B) v rest :
  0 <= v <= 23 ->
  m_bind m_H (fun x => m_bind (m_lit ":") (fun _ => k x)) (pad 2 v +:+ String ":" rest)
  = k v rest.
Proof. intros Hv. enum v 0 24%nat run_field. Qed.

Lemma field_M {B} (k : Z -> matcher B) v rest :
  0 <= v <= 59 ->
  m_bind m_M (fun x => m_bind (m_lit ":") (fun _ => k x)) (pad 2 v +:+ String ":" rest)
  = k v rest.
Proof. intros Hv. enum v 0 60%nat run_field. Qed.

Lemma field_S {B} (k : Z -> matcher B) v :
  0 <= v <= 59 -> m_bind m_SZ k (pad 2 v +:+ "Z") = k v "".
Proof. intros Hv. enum v 0 60%nat run_field. Qed.

Lemma valid_ranges t :
  valid t = true ->
  1 <= year t <= 9999 /\ 1 <= month t <= 12 /\ 1 <= day t <= 31 /\
  0 <= hour t <= 23 /\ 0 <= minute t <= 59 /\ 0 <= second t <= 59.
Proof.
  unfold valid. intros H.
  repeat match type of H with
  | (_ && _)%bool = true => let H' := fresh in apply andb_prop in H as [H H']; apply Z.leb_le in H'
  end.
  apply Z.leb_le in H.
  assert (Hd : days_in_month (year t) (month t) <= 31).
  { unfold days_in_month. repeat match goal with |- context [if ?b then _ else _] => destruct b end; lia. }
  lia.
Qed.

(** [strptime] reads the runtime's text of every valid date and time back
    as that date and time. *)
Lemma strptime_docker_stamp t : valid t = true -> strptime (docker_stamp t "Z") = Ok t.
Proof.
  intros Hv. destruct (valid_ranges t Hv) as (Hy & Hm & Hd & Hh & Hmi & Hs).
  unfold strptime, docker_stamp, m_iso.
  rewrite field_Y by lia. rewrite field_m by lia. rewrite field_d by lia.
  rewrite field_H by lia. rewrite field_M by lia. rewrite field_S by lia.
  cbn [m_ret]. destruct t as [y mo d h mi s]. cbn [year month day hour minute second] in *.
  rewrite Hv. reflexivity.
Qed.

End DockerTimestamps.

Lemma all_digits_app s t : all_digits (s +:+ t) = (all_digits s && all_digits t)%bool.
Proof.
  induction s as [|a s IH]; [reflexivity|].
  change (String a s +:+ t) with (String a (s +:+ t)).
  cbn [all_digits]. rewrite IH. apply andb_assoc.
Qed.

Lemma all_digits_free c s :
  DateTime.is_digit c = false -> all_digits s = true -> has_char c s = false.
Proof.
  intros Hc. induction s as [|a s IH]; cbn; [reflexivity|]. intros H.
  apply andb_prop in H as [Ha Hs]. rewrite (IH Hs), orb_false_r.
  destruct (Ascii.eqb_spec a c); [congruence | reflexivity].
Qed.

Lemma pad_all_digits n z : 0 <= z -> all_digits (DateTime.pad n z) = true.
Proof.
  intros Hz. unfold DateTime.pad. rewrite all_digits_app. apply andb_true_intro. split.
  - induction (n - String.length (PyStr.of_Z z))%nat; cbn; auto.
  - unfold PyStr.of_Z. destruct z as [|p|p]; [reflexivity | | lia].
    cbn [Z.to_int NilZero.string_of_int]. unfold NilZero.string_of_uint.
    pose proof (uint_all_digits (Pos.to_uint p)) as H.
    destruct (Pos.to_uint p); try reflexivity; exact H.
Qed.

Lemma split1_app_sep c x rest :
  has_char c x = false -> PyStr.split1 c (x +:+ String c rest) = [x; rest].
Proof.
  induction x as [|a x IH]; cbn [has_char]; intros H.
  - change ("" +:+ String c rest) with (String c rest). cbn [PyStr.split1].
    rewrite Ascii.eqb_refl. reflexivity.
  - apply orb_false_elim in H as [Ha Hx].
    change (String a x +:+ String c rest) with (String a (x +:+ String c rest)).
    cbn [PyStr.split1]. rewrite Ha, (IH Hx). reflexivity.
Qed.

Lemma docker_stamp_app t a b : docker_stamp t (a +:+ b) = docker_stamp t a +:+ b.
Proof.
  unfold docker_stamp.
  repeat (rewrite ?string_app_assoc;
          change (String ?c ?x +:+ ?y) with (String c (x +:+ y))).
  reflexivity.
Qed.

Lemma docker_stamp_free t c :
  DateTime.valid t = true -> DateTime.is_digit c = false ->
  c <> "-"%char -> c <> "T"%char -> c <> ":"%char ->
  has_char c (docker_stamp t "") = false.
Proof.
  intros Hv Hc H1 H2 H3. destruct (valid_ranges t Hv) as (Hy & Hm & Hd & Hh & Hmi & Hs).
  unfold docker_stamp.
  repeat (rewrite has_char_app; cbn [has_char]).
  rewrite !(all_digits_free c _ Hc) by (apply pad_all_digits; lia).
  destruct (Ascii.eqb_spec "-" c); [congruence|].
  destruct (Ascii.eqb_spec "T" c); [congruence|].
  destruct (Ascii.eqb_spec ":" c); [congruence|]. reflexivity.
Qed.


